(* ===== verification/_CoqProject ===== *)
-Q . S2P
Prelude.v
CLib.v
Sysfs.v
SysfsBacklight.v
SysfsFaults.v
SysfsTypes.v
Machine.v
Driver.v
EventLoop.v
LoopReach.v
Daemon.v
