(* ===== verification/Prelude.v ===== *)
(** * A verification development for mbpeventd / pommed (the hotkey daemon)

    The repository holds two C files:
    - [src/src/mbpeventd.c]: the daemon.  [check_machine_smbios] identifies
      the machine from the SMBIOS vendor and system names.  The static
      tables [mbp1_ops], [mbp2_ops], [mb1_ops] and [mb2_ops] bundle the
      per-model drivers, and the [switch] in [main] selects one of them.
      [main] then probes the LCD backlight driver, opens the event devices
      and runs the [poll] loop.  The loop reopens the devices after an
      error or hangup and runs the ambient-light check at most once per
      [LOOP_TIMEOUT], using a hand-written [timeval] subtraction.
    - [src/pommed/pmac/sysfs_backlight.c]: the sysfs LCD backlight driver
      for the Radeon backlight, with [sysfs_backlight_get], [_get_max],
      [_set], [_step], [_fix_config] and [r9600_sysfs_backlight_probe].
      It keeps the globals [bck_driver], [lcd_bck_info] and
      [lcd_sysfs_cfg].

    How the parts interact: [main] calls the identification once and gets
    a [machine_type].  The [switch] maps that type to a [machine_ops]
    bundle (or exits).  [main] calls the bundle's probe (exiting when it
    returns a negative value), and the loop calls the bundle's step
    function on brightness keys.  The driver calls into the OS: open/read
    of the sysfs attributes, and fopen/fprintf of the brightness
    attribute.

    Files, in dependency order:
    - [Prelude] (this file): C integer ranges and two's-complement wrap,
      the syslog sink ([log_entry]), C array indexing, the tactics
      [zcase] / [zsimpl] and the hint database [pommed].
    - [CLib]: libc's [atoi] (leading blanks, sign, digits) and [printf]'s
      ["%d"] conversion, on lists of ASCII characters, with [atoi] of
      printed digits, where [atoi] stops, and bounds on [atoi] of short
      buffers.
    - [Sysfs]: the environment of the driver.  It holds the sysfs nodes
      as a stdpp [gmap] from path to node (permissions and attribute
      kind), the backlight class device (hardware level and maximum), the
      bytes of the driver's stack from its buffer on, and the log and
      D-Bus outputs.  It gives [access], open+read (a 3-byte read) and
      fopen("a")+fprintf+fclose the way the kernel's backlight class
      answers them.
    - [SysfsBacklight]: [Module SysfsBacklight] translates
      sysfs_backlight.c function by function.  Its state is the record
      [globals] with the C globals, threaded explicitly with the
      [Sysfs.world].
    - [SysfsFaults]: a key press on a probed driver when one sysfs node
      refuses to be opened at that moment ([deny]): what the step
      records, writes and notifies after a failed write or a failed
      read.
    - [SysfsTypes]: the C [int] typing of the driver's globals under an
      arbitrary kernel (no assumption on the sysfs nodes).
    - [Machine]: [machine_type], [check_machine_smbios] with its query
      and log trace, the [machine_ops] tables and the selection [switch]
      of [main].
    - [Driver]: the interface [LcdBacklight] ([Class]) that the daemon
      needs from a backlight driver, with its laws
      ([LcdBacklightLaws]).  [SysfsDriver] discharges it for the sysfs
      driver.
    - [EventLoop]: the [while (running)] loop of [main] as a function
      over a finite list of observations of the environment (the reopen
      result, the [poll] result, the clock, the signals).  Its
      [timeval] arithmetic is at a chosen width of [long].
    - [LoopReach]: the same loop as a step relation [loop_step] (one
      iteration that stays in the loop), its reachable states as stdpp's
      [rtc], and the link [main_loop_reachable] between the function and
      the relation.
    - [Daemon]: [main]'s options, start-up sequence and exit statuses,
      composed with the loop.  Every call of [main] with a lasting effect
      (openlog, evdev_open/evdev_close, daemon(), the pidfile,
      config_cleanup, closelog) is an event of its trace, and [logmsg_out]
      is logmsg's choice between stderr and syslog.

    Groups of theorems (claim ids in the doc comments, C1 to C35):
    - the backlight driver ([SysfsBacklight]): the closed form of a step
      ([sysfs_backlight_step_spec]); the invariant [sysfs_inv]
      ([0 <= level <= max], the hardware in step with the level, the
      step within [[0, max/2]]), established by the probe
      ([r9600_probe_inv]); the clamping of [fix_config]
      ([fix_config_bounds]); every error branch (no driver, no access,
      failed open or read); and the set/get round trip.
    - the interface ([Driver]): every lawful driver is simulated by the
      abstract clamped backlight [abs_step] ([lcd_run_simulates]), and
      the sysfs driver refines it ([sysfs_steps_refine]).
    - identification ([Machine]): the [strcmp] chain refines the lookup
      [identify_spec] in the table of known models; the privilege check
      comes first; a non-Apple vendor stops before the model query; the
      [switch] selects a bundle exactly for the four known machines, with
      the matching [type].
    - the loop ([EventLoop]): the [timeval] subtraction equals the exact
      elapsed time on a [long] of 32 bits or more when nothing wraps (an
      equivalence with the reference [elapsed_usec]); the debounce fires
      exactly when [LOOP_TIMEOUT] has elapsed; reopen and error-scan
      semantics; a run with a signal terminates.
    - the daemon ([Daemon]): a non-zero status for every structural
      start-up failure, the options, and resource safety: a process that
      ends has closed the devices it opened and removed the pidfile it
      wrote ([main_releases_resources]).
    - the loop as a transition system ([LoopReach]): [poll] is never
      called on an empty device set in any reachable state (an invariant
      by rule induction); a device error
      leads to a reopen at the very next iteration (liveness).
    - typing ([SysfsTypes]): after a probe and any key presses, every
      global of the driver is a C [int] whatever the device shows, as
      long as the reads stop inside their buffer.
    - findings proved as theorems: the unterminated read buffer, read
      past its end by [atoi] ([get_reads_past_buffer]), the truncation
      of 4-digit values ([get_max_truncates]), the backlight switched off
      when max_brightness cannot be read
      ([probe_unreadable_max_turns_off]), a step of 0 when [max < 2]
      ([fix_config_step_zero]), the overflow of the microsecond count on
      a 32-bit [long] ([als_check_due_32bit_overflow]), the debounce on a
      clock set back ([als_check_due_clock_back]), exit status 0 after a
      fatal loop error ([main_poll_error_exits_zero]), the misspelt
      program name in [usage] ([main_options_exit]), and two transient
      failures that are not the no-op the specification asks for
      ([SysfsFaults]): a failed write still records and notifies the new
      level ([step_write_failure_records_level]), and a failed read makes
      a key press step from 0, switching the panel off on
      brightness-down ([step_read_failure_from_zero]).
    - composition ([Daemon]): the loop as [main] starts it, on the driver
      of the selected bundle, never polls an empty device set, and its
      final state is reachable by the step relation of [LoopReach]
      ([main_loop_runs_on_open_devices]).
    Each theorem with hypotheses has a [_witness] lemma that applies it to
    a concrete machine, device and run.

    Bounds and fuel: [printf_d] uses 20 digits of fuel, which is enough
    for any 64-bit value.  Driver reads are at most 3 bytes
    ([sizeof(buffer) - 1]); [atoi] then goes on into the stale bytes of
    the stack ([Sysfs.w_stack]).  Nothing in the code bounds how far: past
    [buffer[3]] the read is out of bounds, undefined in C, and modelled
    as reading the stack's bytes.  When [buffer[3]] is not a digit
    ([stack_ok]), [atoi] stops inside the array and a value read is in
    [(-10^3, 10^3)], which is what keeps the globals inside [int].  The
    loop is a structural recursion over the list of observations: one
    element is one iteration, so it always terminates, and a run of the
    real daemon is any prefix of such a list.  The width of [long] is a
    parameter ([long_bits]): the theorems hold for 32 bits or more, and
    the overflow finding is at 32.  [atoi] is over unbounded integers;
    its overflow, also undefined in C, is never reached by the theorems,
    which all read at most four digits.

    Not modelled: the printf-style formatting of log arguments (a log
    line is its level and format string), the value of [M_VERSION] (in
    mbpeventd.h, which is not in the sources), the contents of the
    pidfile, the work done inside daemon() and config_load (their
    results are inputs), evdev.c's device enumeration and key decoding
    (key events are inputs; the dispatch to the step function is
    modelled from the spec), the keyboard backlight and ambient-light
    sensor code (an event of the loop trace), audio and D-Bus transport
    (an output list), and the x1600 and gma950 drivers, which the four
    bundles of mbpeventd.c name.  Apart from the formatting of log
    arguments and the pidfile's contents, none of these is in the
    sources, so there is nothing of them to translate.  [main] probes
    and steps through the driver its selected bundle names, taken from
    the family [Daemon.lcd_driver], so the daemon's theorems hold for any
    drivers; the sysfs driver (which drives the PowerBook's Radeon
    panel, not a MacBook's) stands in for them in the witnesses. *)

From stdpp Require Export base list gmap strings.
From Stdlib Require Export ZArith Lia Ascii.

Declare Scope pommed_scope.
Delimit Scope pommed_scope with pommed.

(** ** C integers *)

Open Scope Z_scope.

Definition INT_MIN : Z := - 2 ^ 31.
Definition INT_MAX : Z := 2 ^ 31 - 1.

(** [in_int z]: [z] is a value of a 32-bit C [int]. *)
Definition in_int (z : Z) : Prop := INT_MIN <= z <= INT_MAX.

(** Two's-complement wrap-around of a signed [bits]-bit integer: what the
    compiled code computes when a signed operation overflows. *)
Definition wrap_signed (bits : Z) (z : Z) : Z :=
  (z + 2 ^ (bits - 1)) mod 2 ^ bits - 2 ^ (bits - 1).

(** Integer division of C ([/] on [int]) truncates toward zero. *)
Definition c_div (a b : Z) : Z := Z.quot a b.

(** ** The log sink ([logmsg], [logdebug]) *)

Inductive log_level := LOG_ERR | LOG_WARNING | LOG_INFO | LOG_DEBUG.

Record log_entry := mk_log { log_lvl : log_level; log_msg : string }.

(** ** C array indexing on a table of strings ([actual_brightness[i]]) *)

Definition c_array_get {A} `{Inhabited A} (arr : list A) (i : Z) : A :=
  default inhabitant (if Z.ltb i 0 then None else arr !! Z.to_nat i).

Notation "arr .[ i ]" := (c_array_get arr i) (at level 1, format "arr .[ i ]")
  : pommed_scope.

(** ** Tactics *)

(** [zcase]: case analysis on every boolean comparison of integers in the
    goal and the hypotheses, leaving the comparison as a [Prop]. *)
Ltac zcase :=
  repeat match goal with
  | |- context [Z.gtb ?a ?b] => rewrite (Z.gtb_ltb a b)
  | |- context [Z.geb ?a ?b] => rewrite (Z.geb_leb a b)
  | H : context [Z.gtb ?a ?b] |- _ => rewrite (Z.gtb_ltb a b) in H
  | H : context [Z.geb ?a ?b] |- _ => rewrite (Z.geb_leb a b) in H
  | |- context [Z.eqb ?a ?b] => destruct (Z.eqb_spec a b)
  | |- context [Z.ltb ?a ?b] => destruct (Z.ltb_spec a b)
  | |- context [Z.leb ?a ?b] => destruct (Z.leb_spec a b)
  | H : context [Z.eqb ?a ?b] |- _ => destruct (Z.eqb_spec a b)
  | H : context [Z.ltb ?a ?b] |- _ => destruct (Z.ltb_spec a b)
  | H : context [Z.leb ?a ?b] |- _ => destruct (Z.leb_spec a b)
  end.

(** [zsimpl]: case on the comparisons, then close the arithmetic. *)
Ltac zsimpl := simpl in *; zcase; simpl in *; try lia.

Create HintDb pommed.

(** ** Shared lemmas *)

Lemma wrap_signed_small bits z :
  0 < bits -> - 2 ^ (bits - 1) <= z < 2 ^ (bits - 1) -> wrap_signed bits z = z.
Proof.
  intros Hb Hz. unfold wrap_signed.
  assert (E : 2 ^ bits = 2 * 2 ^ (bits - 1)).
  { rewrite <- Z.pow_succ_r by lia. f_equal; lia. }
  rewrite Z.mod_small by lia. lia.
Qed.

(** A value just above the signed range wraps to a negative one. *)
Lemma wrap_signed_high bits z :
  0 < bits -> 2 ^ (bits - 1) <= z < 2 ^ (bits - 1) + 2 ^ bits ->
  wrap_signed bits z = z - 2 ^ bits.
Proof.
  intros Hb Hz. unfold wrap_signed.
  assert (E : 2 ^ bits = 2 * 2 ^ (bits - 1)).
  { rewrite <- Z.pow_succ_r by lia. f_equal; lia. }
  rewrite <- (Z.mod_unique (z + 2 ^ (bits - 1)) (2 ^ bits) 1 (z + 2 ^ (bits - 1) - 2 ^ bits));
    lia.
Qed.

Lemma c_div_nonneg a b : 0 <= a -> 0 < b -> c_div a b = a / b.
Proof. intros. unfold c_div. by apply Z.quot_div_nonneg. Qed.

Lemma c_div2_bound a : 0 <= a -> 0 <= c_div a 2 <= a.
Proof.
  intros Ha. rewrite c_div_nonneg by lia. split.
  - apply Z.div_pos; lia.
  - apply Z.div_le_upper_bound; lia.
Qed.

Lemma c_array_get_in {A} `{Inhabited A} (arr : list A) (i : nat) x :
  arr !! i = Some x -> (arr.[Z.of_nat i])%pommed = x.
Proof.
  intros Hx. unfold c_array_get.
  destruct (Z.ltb_spec (Z.of_nat i) 0); [lia |].
  by rewrite Nat2Z.id, Hx.
Qed.

#[export] Hint Resolve c_div2_bound : pommed.

(** The clamps the C code writes as [if (x > hi) x = hi;] and
    [if (x < lo) x = lo;]. *)
Lemma clamp_hi a b : (if a >? b then b else a) = Z.min a b.
Proof. rewrite Z.gtb_ltb. destruct (Z.ltb_spec b a); lia. Qed.

Lemma clamp_lo a b : (if a <? b then b else a) = Z.max a b.
Proof. destruct (Z.ltb_spec a b); lia. Qed.
