(* ===== verification/CLib.v ===== *)
(** * The libc text conversions used by the sysfs driver

    [sysfs_backlight_get] and [sysfs_backlight_get_max] convert the bytes
    they read with [atoi].  [sysfs_backlight_set] writes its value with
    [fprintf(fp, "%d", value)].  Both are libc functions (C locale), so
    they are modelled here from their C standard semantics, on lists of
    ASCII characters:
    - [atoi] skips [isspace] characters, takes an optional sign, then
      decimal digits up to the first non-digit;
    - [printf_d] prints the decimal digits with a leading ['-'] for
      negative values.
    [atoi] reads back the digits [printf_d] prints
    ([atoi_dec_digits]), and it reads no further than the first byte
    that cannot continue a number ([atoi_take]); these, and a bound on
    [atoi] of a short buffer, are what the driver's theorems need. *)

From S2P Require Import Prelude.

Open Scope Z_scope.
Open Scope list_scope.

Module CLib.

(** ** Character classes of the C locale *)

Definition c_isspace (c : ascii) : bool :=
  let n := nat_of_ascii c in
  (Nat.eqb n 32 || (Nat.leb 9 n && Nat.leb n 13))%bool.

Definition c_isdigit (c : ascii) : bool :=
  let n := nat_of_ascii c in (Nat.leb 48 n && Nat.leb n 57)%bool.

Definition digit_value (c : ascii) : Z := Z.of_nat (nat_of_ascii c) - 48.

Definition digit_char (d : Z) : ascii := ascii_of_nat (Z.to_nat (d + 48)).

(** ** [atoi] *)

Fixpoint skip_space (l : list ascii) : list ascii :=
  match l with
  | c :: l' => if c_isspace c then skip_space l' else l
  | [] => []
  end.

Fixpoint atoi_digits (acc : Z) (l : list ascii) : Z :=
  match l with
  | c :: l' => if c_isdigit c then atoi_digits (10 * acc + digit_value c) l' else acc
  | [] => acc
  end.

Definition atoi (l : list ascii) : Z :=
  match skip_space l with
  | c :: l' =>
      if Ascii.eqb c "-" then - atoi_digits 0 l'
      else if Ascii.eqb c "+" then atoi_digits 0 l'
      else atoi_digits 0 (c :: l')
  | [] => 0
  end.

(** ** [printf("%d")] *)

Fixpoint dec_digits (fuel : nat) (n : Z) : list ascii :=
  match fuel with
  | O => []
  | S f => if n <? 10 then [digit_char n]
           else dec_digits f (n / 10) ++ [digit_char (n mod 10)]
  end.

(** Twenty digits cover every 64-bit value. *)
Definition printf_fuel : nat := 20.

Definition printf_d (z : Z) : list ascii :=
  if z <? 0 then "-"%char :: dec_digits printf_fuel (- z)
  else dec_digits printf_fuel z.

(** The value of a string of digits, read left to right. *)
Definition digits_value (acc : Z) (l : list ascii) : Z :=
  fold_left (fun a c => 10 * a + digit_value c) l acc.

(** [ends_number rest]: the bytes after a number do not extend it. *)
Definition ends_number (rest : list ascii) : bool :=
  match rest with
  | c :: _ => negb (c_isdigit c)
  | [] => true
  end.

(** ** Lemmas *)

Lemma digit_char_spec d :
  0 <= d < 10 -> c_isdigit (digit_char d) = true /\ digit_value (digit_char d) = d.
Proof.
  intros Hd.
  assert (d = 0 \/ d = 1 \/ d = 2 \/ d = 3 \/ d = 4 \/ d = 5 \/ d = 6 \/
          d = 7 \/ d = 8 \/ d = 9) as Hc by lia.
  repeat destruct Hc as [-> | Hc]; [..| subst]; split; reflexivity.
Qed.

Lemma isdigit_not_space c : c_isdigit c = true -> c_isspace c = false.
Proof.
  unfold c_isdigit, c_isspace. intros H.
  apply andb_true_iff in H as [H1 H2]. apply Nat.leb_le in H1, H2.
  apply orb_false_iff. split.
  - apply Nat.eqb_neq. lia.
  - apply andb_false_iff. right. apply Nat.leb_gt. lia.
Qed.

Lemma isdigit_not_sign c :
  c_isdigit c = true -> Ascii.eqb c "-" = false /\ Ascii.eqb c "+" = false.
Proof.
  intros H. split; destruct (Ascii.eqb_spec c "-"), (Ascii.eqb_spec c "+");
    subst; done.
Qed.

Lemma atoi_digit_head c l :
  c_isdigit c = true -> atoi (c :: l) = atoi_digits 0 (c :: l).
Proof.
  intros H. unfold atoi. simpl. rewrite (isdigit_not_space c H).
  destruct (isdigit_not_sign c H) as [-> ->]. reflexivity.
Qed.

Lemma atoi_digits_app acc l rest :
  Forall (fun c => c_isdigit c = true) l ->
  atoi_digits acc (l ++ rest) = atoi_digits (digits_value acc l) rest.
Proof.
  revert acc. induction l as [|c l IH]; intros acc Hl; [reflexivity |].
  inversion Hl as [|? ? Hc Hl']; subst. simpl. rewrite Hc. apply IH, Hl'.
Qed.

Lemma atoi_digits_stop acc rest : ends_number rest = true -> atoi_digits acc rest = acc.
Proof.
  destruct rest as [|c rest]; [reflexivity |]. simpl.
  intros H. apply negb_true_iff in H. by rewrite H.
Qed.

Lemma digits_value_app acc l1 l2 :
  digits_value acc (l1 ++ l2) = digits_value (digits_value acc l1) l2.
Proof. unfold digits_value. apply fold_left_app. Qed.

Lemma dec_digits_all f n :
  0 <= n -> Forall (fun c => c_isdigit c = true) (dec_digits f n).
Proof.
  revert n. induction f as [|f IH]; intros n Hn; simpl; [constructor |].
  destruct (Z.ltb_spec n 10).
  - constructor; [apply digit_char_spec; lia | constructor].
  - apply Forall_app. split.
    + apply IH. apply Z.div_pos; lia.
    + constructor; [| constructor]. apply digit_char_spec.
      apply Z.mod_pos_bound. lia.
Qed.

Lemma dec_digits_value f n :
  0 <= n < 10 ^ Z.of_nat f -> digits_value 0 (dec_digits f n) = n.
Proof.
  revert n. induction f as [|f IH]; intros n Hn.
  - simpl in Hn. cbn [dec_digits digits_value fold_left]. lia.
  - simpl. destruct (Z.ltb_spec n 10).
    + cbn [digits_value fold_left]. destruct (digit_char_spec n) as [_ ->]; lia.
    + rewrite digits_value_app, IH.
      * cbn [digits_value fold_left].
        destruct (digit_char_spec (n mod 10)) as [_ ->];
          [apply Z.mod_pos_bound; lia |].
        pose proof (Z.div_mod n 10). lia.
      * rewrite Nat2Z.inj_succ, Z.pow_succ_r in Hn by lia. split.
        -- apply Z.div_pos; lia.
        -- apply Z.div_lt_upper_bound; lia.
Qed.

Lemma dec_digits_step f n :
  10 <= n -> dec_digits (S f) n = dec_digits f (n / 10) ++ [digit_char (n mod 10)].
Proof. intros Hn. simpl. destruct (Z.ltb_spec n 10); [lia | reflexivity]. Qed.

Lemma dec_digits_cons f n :
  0 <= n -> exists c l, dec_digits (S f) n = c :: l /\ c_isdigit c = true.
Proof.
  intros Hn. pose proof (dec_digits_all (S f) n Hn) as Hall.
  destruct (dec_digits (S f) n) as [|c l] eqn:E.
  - simpl in E. destruct (n <? 10); [discriminate |].
    apply app_eq_nil in E as [_ E]. discriminate.
  - inversion Hall; subst. eauto.
Qed.

Lemma dec_digits_length f n (k : nat) :
  (1 <= k)%nat -> 0 <= n < 10 ^ Z.of_nat k -> (length (dec_digits f n) <= k)%nat.
Proof.
  revert n k. induction f as [|f IH]; intros n k Hk Hn; simpl; [lia |].
  destruct (Z.ltb_spec n 10); simpl; [lia |].
  rewrite length_app. simpl.
  destruct k as [|[|k]]; [lia | simpl in Hn; lia |].
  assert (length (dec_digits f (n / 10)) <= S k)%nat; [| lia].
  apply IH; [lia |].
  rewrite Nat2Z.inj_succ, Nat2Z.inj_succ, Z.pow_succ_r in Hn by lia. split.
  - apply Z.div_pos; lia.
  - apply Z.div_lt_upper_bound; rewrite ?Nat2Z.inj_succ; lia.
Qed.

Lemma dec_digits_length_ge f n (k : nat) :
  (k < f)%nat -> 10 ^ Z.of_nat k <= n -> (k < length (dec_digits f n))%nat.
Proof.
  revert n k. induction f as [|f IH]; intros n k Hk Hn; [lia |]. simpl.
  destruct (Z.ltb_spec n 10).
  - destruct k as [|k]; simpl; [lia |].
    rewrite Nat2Z.inj_succ, Z.pow_succ_r in Hn by lia.
    pose proof (Z.pow_pos_nonneg 10 (Z.of_nat k)). lia.
  - rewrite length_app. simpl. destruct k as [|k]; [lia |].
    assert (k < length (dec_digits f (n / 10)))%nat; [| lia].
    apply IH; [lia |]. rewrite Nat2Z.inj_succ, Z.pow_succ_r in Hn by lia.
    apply Z.div_le_lower_bound; lia.
Qed.

(** [dec_digits] of a number of [k] digits has length [k]. *)
Lemma dec_digits_length_eq f n (k : nat) :
  (k <= f)%nat -> 10 ^ (Z.of_nat k - 1) <= n < 10 ^ Z.of_nat k -> (1 <= k)%nat ->
  length (dec_digits f n) = k.
Proof.
  intros Hf Hn Hk. destruct k as [|k]; [lia |].
  replace (Z.of_nat (S k) - 1) with (Z.of_nat k) in Hn by lia.
  pose proof (Z.pow_pos_nonneg 10 (Z.of_nat k)).
  pose proof (dec_digits_length f n (S k) Hk ltac:(lia)).
  pose proof (dec_digits_length_ge f n k ltac:(lia) ltac:(lia)).
  lia.
Qed.

(** The value of a digit string, read by [atoi], when what follows it does
    not continue the number. *)
Lemma atoi_dec_digits_cont f n rest :
  0 <= n < 10 ^ Z.of_nat (S f) ->
  atoi (dec_digits (S f) n ++ rest) = atoi_digits n rest.
Proof.
  intros Hn.
  destruct (dec_digits_cons f n) as (c & l & E & Hc); [lia |].
  rewrite E. simpl. rewrite atoi_digit_head by exact Hc.
  rewrite app_comm_cons, <- E, atoi_digits_app by (apply dec_digits_all; lia).
  by rewrite dec_digits_value.
Qed.

Lemma atoi_dec_digits f n rest :
  0 <= n < 10 ^ Z.of_nat (S f) -> ends_number rest = true ->
  atoi (dec_digits (S f) n ++ rest) = n.
Proof.
  intros Hn Hrest. rewrite atoi_dec_digits_cont by exact Hn.
  by apply atoi_digits_stop.
Qed.

Lemma skip_space_length l : (length (skip_space l) <= length l)%nat.
Proof. induction l as [|c l IH]; simpl; [lia |]. destruct (c_isspace c); simpl; lia. Qed.

Lemma atoi_digits_bound acc l :
  0 <= acc -> acc <= atoi_digits acc l < (acc + 1) * 10 ^ Z.of_nat (length l).
Proof.
  revert acc. induction l as [|c l IH]; intros acc Hacc; simpl; [lia |].
  rewrite Nat2Z.inj_succ, Z.pow_succ_r by lia.
  destruct (c_isdigit c) eqn:Hc.
  - assert (0 <= digit_value c <= 9).
    { unfold c_isdigit, digit_value in *.
      apply andb_true_iff in Hc as [H1 H2]. apply Nat.leb_le in H1, H2. lia. }
    destruct (IH (10 * acc + digit_value c)) as [H1 H2]; [lia |].
    pose proof (Z.pow_pos_nonneg 10 (Z.of_nat (length l))). split; nia.
  - pose proof (Z.pow_pos_nonneg 10 (Z.of_nat (length l))). nia.
Qed.

Lemma atoi_bound l :
  - 10 ^ Z.of_nat (length l) < atoi l < 10 ^ Z.of_nat (length l).
Proof.
  unfold atoi. pose proof (skip_space_length l) as Hlen.
  assert (Hmono : forall a b : nat, (a <= b)%nat -> 10 ^ Z.of_nat a <= 10 ^ Z.of_nat b)
    by (intros; apply Z.pow_le_mono_r; lia).
  destruct (skip_space l) as [|c l']; simpl in Hlen.
  - pose proof (Z.pow_pos_nonneg 10 (Z.of_nat (length l))). lia.
  - pose proof (atoi_digits_bound 0 l' ltac:(lia)).
    pose proof (atoi_digits_bound 0 (c :: l') ltac:(lia)).
    pose proof (Hmono (length l') (length l) ltac:(lia)).
    pose proof (Hmono (length (c :: l')) (length l) ltac:(simpl; lia)).
    destruct (Ascii.eqb c "-"); [| destruct (Ascii.eqb c "+")]; lia.
Qed.

(** [atoi] of the first [n] bytes of a buffer. *)
Lemma atoi_take_bound n l : - 10 ^ Z.of_nat n < atoi (take n l) < 10 ^ Z.of_nat n.
Proof.
  pose proof (atoi_bound (take n l)). pose proof (firstn_le_length n l).
  assert (10 ^ Z.of_nat (length (take n l)) <= 10 ^ Z.of_nat n)
    by (apply Z.pow_le_mono_r; lia).
  lia.
Qed.

(** [atoi_digits] stops at the first non-digit: when byte [n] does not
    extend the number, only the first [n] bytes count. *)
Lemma atoi_digits_take n acc l :
  ends_number (drop n l) = true -> atoi_digits acc l = atoi_digits acc (take n l).
Proof.
  revert n acc. induction l as [|c l IH]; intros n acc Hn; [by destruct n |].
  destruct n as [|n].
  - rewrite atoi_digits_stop by exact Hn. reflexivity.
  - simpl. destruct (c_isdigit c); [by apply IH | done].
Qed.

(** The same for [atoi] on a buffer that does not start with a blank. *)
Lemma atoi_take n l :
  (1 <= n)%nat -> ends_number (drop n l) = true ->
  (forall c l', l = c :: l' -> c_isspace c = false) ->
  atoi l = atoi (take n l).
Proof.
  intros Hn Hd Hsp. destruct l as [|c l]; [by rewrite take_nil |]. destruct n as [|n]; [lia |].
  pose proof (Hsp c l eq_refl) as Hc. unfold atoi. simpl. rewrite Hc.
  destruct (Ascii.eqb c "-"); [| destruct (Ascii.eqb c "+")];
    [by rewrite (atoi_digits_take n 0 l Hd) .. |].
  exact (atoi_digits_take (S n) 0 (c :: l) Hd).
Qed.

(** What [printf("%d")] prints starts with a digit or a sign. *)
Lemma printf_d_cons n : exists c l, printf_d n = c :: l /\ c_isspace c = false.
Proof.
  unfold printf_d, printf_fuel. destruct (Z.ltb_spec n 0); [by eauto |].
  destruct (dec_digits_cons 19 n) as (c & l & E & Hc); [lia |].
  rewrite E. eauto using isdigit_not_space.
Qed.

End CLib.

(** ** Examples *)

Example printf_d_255 : CLib.printf_d 255 = ["2"; "5"; "5"]%char.
Proof. reflexivity. Qed.

Example atoi_blank_sign : CLib.atoi [" "; "-"; "4"; "2"; "x"]%char = -42.
Proof. reflexivity. Qed.
