(* ===== verification/Sysfs.v ===== *)
(** * The environment of the sysfs backlight driver

    What [sysfs_backlight.c] observes of the operating system, modelled
    from the POSIX calls it makes and the way the kernel's backlight
    class answers them.  None of this is code of the repository.
    - The file system is a stdpp [gmap] from path to [node].  A node
      records whether the daemon may read it and write it (what [access]
      and [open] check) and what it is: [/dev/null] or one of the three
      attributes of the backlight class device.
    - The device is its current level and its [max_brightness].  Reading
      [brightness] or [actual_brightness] shows the level, and
      [max_brightness] shows the maximum, each in decimal with a newline.
      Writing [brightness] parses the text as an unsigned decimal (the
      kernel's [kstrtoul]) and takes the value when it is at most the
      maximum; otherwise the write fails with [EINVAL] and nothing
      changes.
    - [w_stack] holds the bytes of the driver's stack from its buffer
      [char buffer[4]] on, before the call: the four bytes of the array,
      then the bytes after it.  [read] overwrites only the bytes it
      returns; [atoi] reads on into the rest until a byte that cannot
      continue a number, past the array when [buffer[3]] is a digit
      (undefined behaviour in C, modelled as reading the stack bytes
      there).  Past the bytes listed, the model takes memory to hold a
      non-digit.
    - [w_log] is the syslog sink, and [w_dbus] holds the
      [(new, old)] pairs sent by [mbpdbus_send_lcd_backlight]. *)

From S2P Require Import Prelude.
From S2P Require Import CLib.

Open Scope Z_scope.

Module Sysfs.

Inductive node_kind := NullDev | BlBrightness | BlActual | BlMax.

Record node := mk_node { n_read : bool; n_write : bool; n_kind : node_kind }.

Record world := mk_world {
  w_fs : gmap string node;
  w_level : Z;
  w_max : Z;
  w_stack : list ascii;
  w_log : list log_entry;
  w_dbus : list (Z * Z)
}.

(** ** Outputs *)

Definition logmsg (lvl : log_level) (msg : string) (w : world) : world :=
  mk_world (w_fs w) (w_level w) (w_max w) (w_stack w)
           (w_log w ++ [mk_log lvl msg]) (w_dbus w).

Definition mbpdbus_send_lcd_backlight (cur prev : Z) (w : world) : world :=
  mk_world (w_fs w) (w_level w) (w_max w) (w_stack w) (w_log w)
           (w_dbus w ++ [(cur, prev)]).

Definition set_level (v : Z) (w : world) : world :=
  mk_world (w_fs w) v (w_max w) (w_stack w) (w_log w) (w_dbus w).

(** ** System calls *)

Inductive access_mode := R_OK | W_OK.

(** [access(path, mode) == 0] *)
Definition sys_access (w : world) (path : string) (mode : access_mode) : bool :=
  match w_fs w !! path with
  | Some n => match mode with R_OK => n_read n | W_OK => n_write n end
  | None => false
  end.

(** [open(path, O_RDONLY)]: the node opened, or failure. *)
Definition sys_open_rdonly (w : world) (path : string) : option node_kind :=
  match w_fs w !! path with
  | Some n => if n_read n then Some (n_kind n) else None
  | None => None
  end.

(** [fopen(path, "a")]: the node opened for writing, or [NULL]. *)
Definition sys_fopen_append (w : world) (path : string) : option node_kind :=
  match w_fs w !! path with
  | Some n => if n_write n then Some (n_kind n) else None
  | None => None
  end.

(** The text a node shows when read from offset 0. *)
Definition node_show (w : world) (k : node_kind) : list ascii :=
  match k with
  | NullDev => []
  | BlBrightness | BlActual => CLib.printf_d (w_level w) ++ ["010"%char]
  | BlMax => CLib.printf_d (w_max w) ++ ["010"%char]
  end.

(** [read(fd, buf, n)] on a freshly opened node returns its first [n]
    bytes. *)
Definition sys_read (w : world) (k : node_kind) (n : nat) : list ascii :=
  firstn n (node_show w k).

(** The kernel's [kstrtoul] on what [fprintf(fp, "%d", v)] produces: a
    non-empty string of decimal digits.  (A ["%d"] conversion never
    starts with ["0x"] or with a [0] followed by digits, so base 0 reads
    it as decimal.) *)
Definition kstrtoul (t : list ascii) : option Z :=
  match t with
  | [] => None
  | _ => if forallb CLib.c_isdigit t then Some (CLib.digits_value 0 t) else None
  end.

(** The write of [text] to a node, flushed by [fclose]. *)
Definition node_store (w : world) (k : node_kind) (text : list ascii) : world :=
  match k with
  | BlBrightness =>
      match kstrtoul text with
      | Some v => if v <=? w_max w then set_level v w else w
      | None => w
      end
  | _ => w
  end.

(** ** Lemmas *)

Lemma kstrtoul_printf_d v :
  0 <= v < 10 ^ 20 -> kstrtoul (CLib.printf_d v) = Some v.
Proof.
  intros Hv. unfold CLib.printf_d. destruct (Z.ltb_spec v 0); [lia |].
  unfold CLib.printf_fuel.
  destruct (CLib.dec_digits_cons 19 v) as (c & l & E & _); [lia |].
  unfold kstrtoul. rewrite E, <- E.
  rewrite (proj2 (forallb_forall _ _)).
  - f_equal. apply CLib.dec_digits_value. simpl. lia.
  - intros x Hx. pose proof (CLib.dec_digits_all 20 v ltac:(lia)) as Hall.
    rewrite List.Forall_forall in Hall. by apply Hall.
Qed.

(** The kernel rejects the text of a negative value. *)
Lemma kstrtoul_negative v : v < 0 -> kstrtoul (CLib.printf_d v) = None.
Proof. intros Hv. unfold CLib.printf_d. destruct (Z.ltb_spec v 0); [reflexivity | lia]. Qed.

End Sysfs.
