(* ===== verification/SysfsBacklight.v ===== *)
(** * The sysfs LCD backlight driver (src/pommed/pmac/sysfs_backlight.c)

    [Module SysfsBacklight] translates the file function by function.  The
    C globals [bck_driver], [lcd_bck_info] and [lcd_sysfs_cfg] form the
    record [globals].  Each function takes them with the [Sysfs.world]
    and returns the updated pair, together with its C return value.
    - [sysfs_backlight_get] / [sysfs_backlight_get_max]: open the node,
      [read] 3 bytes into [char buffer[4]], and [atoi] the buffer.  The
      buffer is not NUL-terminated, so [atoi] also sees the stale byte
      after the ones read.
    - [sysfs_backlight_set]: [fopen(.., "a")], [fprintf("%d")] and
      [fclose].  It has no [bck_driver] guard.
    - [sysfs_backlight_step]: get, add or subtract the step, clamp, set,
      notify D-Bus, and record the level.
    - [sysfs_backlight_fix_config]: clamp [init] into [[-1, max]] and
      [step] into [[1, max/2]], in that order.
    - [r9600_sysfs_backlight_probe]: the access checks, then get_max,
      fix_config, the optional initial set, and get.
    The [logdebug] lines print only in debug mode and are not modelled.
    The [strerror(errno)] suffix of the warnings is dropped from the
    logged text. *)

From S2P Require Import Prelude.
From S2P Require Import CLib.
From S2P Require Import Sysfs.

Open Scope Z_scope.
Open Scope pommed_scope.

Module SysfsBacklight.

Import Sysfs.

(** ** Data *)

Definition SYSFS_DRIVER_NONE : Z := 0.
Definition SYSFS_DRIVER_RADEON : Z := 1.

Definition actual_brightness : list string :=
  ["/dev/null"; "/sys/class/backlight/radeonbl0/actual_brightness"].

Definition brightness : list string :=
  ["/dev/null"; "/sys/class/backlight/radeonbl0/brightness"].

Definition max_brightness : list string :=
  ["/dev/null"; "/sys/class/backlight/radeonbl0/max_brightness"].

(** [SYSFS_BACKLIGHT_OFF] (lcd_backlight.h) and [STEP_UP] / [STEP_DOWN]
    (pommed.h) are not in the sources. *)
Definition SYSFS_BACKLIGHT_OFF : Z := 0.
Definition STEP_UP : Z := 1.
Definition STEP_DOWN : Z := -1.

Record bck_info := mk_bck_info { level : Z; max : Z }.
Record sysfs_cfg := mk_sysfs_cfg { init : Z; step : Z }.

Record globals := mk_globals {
  bck_driver : Z;
  lcd_bck_info : bck_info;
  lcd_sysfs_cfg : sysfs_cfg
}.

Definition with_driver (d : Z) (g : globals) : globals :=
  mk_globals d (lcd_bck_info g) (lcd_sysfs_cfg g).
Definition with_level (v : Z) (g : globals) : globals :=
  mk_globals (bck_driver g) (mk_bck_info v (max (lcd_bck_info g))) (lcd_sysfs_cfg g).
Definition with_max (m : Z) (g : globals) : globals :=
  mk_globals (bck_driver g) (mk_bck_info (level (lcd_bck_info g)) m) (lcd_sysfs_cfg g).
Definition with_cfg (c : sysfs_cfg) (g : globals) : globals :=
  mk_globals (bck_driver g) (lcd_bck_info g) c.

(** ** Operations *)

(** The common body of [sysfs_backlight_get] and [_get_max]: open the node
    [paths[bck_driver]], read [sizeof(buffer) - 1] bytes into [buffer] and
    [atoi] it.  Nothing terminates the bytes read, so [atoi] goes on into
    the stale bytes of the stack after them ([w_stack] from index
    [length bytes] on): [buffer[3]], and, when that is a digit, the bytes
    after the array. *)
Definition read_int_node (paths : list string) (open_msg read_msg : string)
    (g : globals) (w : world) : Z * world :=
  match sys_open_rdonly w (paths.[bck_driver g]) with
  | None => (0, logmsg LOG_WARNING open_msg w)
  | Some k =>
      let bytes := sys_read w k 3 in
      if (length bytes <? 1)%nat then (0, logmsg LOG_WARNING read_msg w)
      else (CLib.atoi (bytes ++ drop (length bytes) (w_stack w)), w)
  end.

Definition sysfs_backlight_get (g : globals) (w : world) : Z * world :=
  if bck_driver g =? SYSFS_DRIVER_NONE then (0, w)
  else read_int_node actual_brightness
         "Could not open sysfs actual_brightness node"
         "Could not read sysfs actual_brightness node" g w.

Definition sysfs_backlight_get_max (g : globals) (w : world) : Z * world :=
  if bck_driver g =? SYSFS_DRIVER_NONE then (0, w)
  else read_int_node max_brightness
         "Could not open sysfs max_brightness node"
         "Could not read sysfs max_brightness node" g w.

Definition sysfs_backlight_set (g : globals) (value : Z) (w : world) : world :=
  match sys_fopen_append w (brightness.[bck_driver g]) with
  | None => logmsg LOG_WARNING "Could not open sysfs brightness node" w
  | Some k => node_store w k (CLib.printf_d value)
  end.

(** The last three statements of [sysfs_backlight_step], shared by both
    directions. *)
Definition step_commit (g : globals) (newval val : Z) (w : world) : globals * world :=
  let w := sysfs_backlight_set g newval w in
  let w := mbpdbus_send_lcd_backlight newval val w in
  (with_level newval g, w).

Definition sysfs_backlight_step (dir : Z) (g : globals) (w : world) : globals * world :=
  if bck_driver g =? SYSFS_DRIVER_NONE then (g, w)
  else
    let '(val, w) := sysfs_backlight_get g w in
    let cfg_step := step (lcd_sysfs_cfg g) in
    if dir =? STEP_UP then
      let newval := val + cfg_step in
      let newval := if newval >? max (lcd_bck_info g) then max (lcd_bck_info g) else newval in
      step_commit g newval val w
    else if dir =? STEP_DOWN then
      let newval := val - cfg_step in
      let newval := if newval <? SYSFS_BACKLIGHT_OFF then SYSFS_BACKLIGHT_OFF else newval in
      step_commit g newval val w
    else (g, w).

Definition sysfs_backlight_fix_config (g : globals) : globals :=
  let m := max (lcd_bck_info g) in
  let i := init (lcd_sysfs_cfg g) in
  let i := if i <? 0 then -1 else i in
  let i := if i >? m then m else i in
  let s := step (lcd_sysfs_cfg g) in
  let s := if s <? 1 then 1 else s in
  let s := if s >? c_div m 2 then c_div m 2 else s in
  with_cfg (mk_sysfs_cfg i s) g.

Definition r9600_sysfs_backlight_probe (g : globals) (w : world) : Z * globals * world :=
  if negb (sys_access w (brightness.[SYSFS_DRIVER_RADEON]) W_OK) then (-1, g, w)
  else if negb (sys_access w (actual_brightness.[SYSFS_DRIVER_RADEON]) R_OK) then (-1, g, w)
  else
    let g := with_driver SYSFS_DRIVER_RADEON g in
    let '(m, w) := sysfs_backlight_get_max g w in
    let g := with_max m g in
    let g := sysfs_backlight_fix_config g in
    let w := if init (lcd_sysfs_cfg g) >? -1
             then sysfs_backlight_set g (init (lcd_sysfs_cfg g)) w else w in
    let '(lv, w) := sysfs_backlight_get g w in
    (0, with_level lv g, w).

(** ** The state the driver keeps after a successful probe *)

(** The stale byte [buffer[3]] is not a digit, so [atoi] stops inside the
    array whatever the read returned. *)
Definition stack_ok (st : list ascii) : Prop := CLib.ends_number (drop 3 st) = true.

(** The Radeon attributes are present with the rights the driver uses, the
    device level is within [[0, max_brightness]], and [max_brightness]
    has at most three digits. *)
Definition hw_ok (w : world) : Prop :=
  (exists r, w_fs w !! (brightness.[SYSFS_DRIVER_RADEON]) = Some (mk_node r true BlBrightness)) /\
  (exists wr, w_fs w !! (actual_brightness.[SYSFS_DRIVER_RADEON]) = Some (mk_node true wr BlActual)) /\
  (exists wr, w_fs w !! (max_brightness.[SYSFS_DRIVER_RADEON]) = Some (mk_node true wr BlMax)) /\
  0 <= w_level w <= w_max w /\ w_max w < 1000 /\ stack_ok (w_stack w).

(** The driver invariant: the Radeon driver is active, its cached maximum
    and level are the device's, and the step is within [[0, max/2]]. *)
Definition sysfs_inv (g : globals) (w : world) : Prop :=
  bck_driver g = SYSFS_DRIVER_RADEON /\ hw_ok w /\
  max (lcd_bck_info g) = w_max w /\ level (lcd_bck_info g) = w_level w /\
  0 <= step (lcd_sysfs_cfg g) <= c_div (max (lcd_bck_info g)) 2.

(** ** Sample machines, for the witnesses *)

(** A PowerBook with the Radeon backlight: the three attributes with their
    usual modes (root may write [brightness]), and [/dev/null]. *)
Definition radeon_fs : gmap string node :=
  <[brightness.[SYSFS_DRIVER_RADEON] := mk_node true true BlBrightness]>
  (<[actual_brightness.[SYSFS_DRIVER_RADEON] := mk_node true false BlActual]>
  (<[max_brightness.[SYSFS_DRIVER_RADEON] := mk_node true false BlMax]>
  (<["/dev/null" := mk_node true true NullDev]> ∅))).

Definition zero_stack : list ascii := ["000"; "000"; "000"; "000"]%char.

Definition sample_world (fs : gmap string node) (lvl mx : Z) (st : list ascii) : world :=
  mk_world fs lvl mx st [] [].

Definition sample_globals (drv lvl mx i s : Z) : globals :=
  mk_globals drv (mk_bck_info lvl mx) (mk_sysfs_cfg i s).

(** The configuration [fix_config] produces from the probed maximum. *)
Definition probed_cfg (g : globals) (w : world) : globals :=
  sysfs_backlight_fix_config (with_max (w_max w) (with_driver SYSFS_DRIVER_RADEON g)).

(** ** Lemmas on the reads and the write *)

(** A 3-byte read of a value of at most three digits, shown with its
    newline, gives the value back through [atoi], whatever follows in the
    buffer when the stale byte is not a digit. *)
Lemma read3_atoi v st :
  0 <= v < 1000 -> stack_ok st ->
  let bytes := take 3 (CLib.printf_d v ++ ["010"%char]) in
  (1 <= length bytes)%nat /\
  CLib.atoi (bytes ++ drop (length bytes) st) = v.
Proof.
  intros Hv Hst. unfold CLib.printf_d, CLib.printf_fuel.
  destruct (Z.ltb_spec v 0); [lia |].
  pose proof (CLib.dec_digits_length 20 v 3 ltac:(lia) ltac:(simpl; lia)) as Hlen.
  destruct (CLib.dec_digits_cons 19 v) as (c & l & E & _); [lia |].
  assert (Hne : (1 <= length (CLib.dec_digits 20 v))%nat) by (rewrite E; simpl; lia).
  set (ds := CLib.dec_digits 20 v) in *.
  assert (Hat : forall rest, CLib.ends_number rest = true -> CLib.atoi (ds ++ rest) = v)
    by (intros; apply CLib.atoi_dec_digits; [simpl; lia | done]).
  destruct (decide (length ds = 3%nat)) as [H3 | H3].
  - rewrite firstn_app, H3, firstn_all2 by lia. simpl. rewrite app_nil_r, H3.
    split; [lia |]. apply Hat. exact Hst.
  - rewrite firstn_all2 by (rewrite length_app; simpl; lia).
    split; [rewrite length_app; simpl; lia |].
    rewrite <- app_assoc. apply Hat. reflexivity.
Qed.

Lemma read_int_node_ok paths m1 m2 g w k wr v :
  w_fs w !! (paths.[bck_driver g]) = Some (mk_node true wr k) ->
  node_show w k = CLib.printf_d v ++ ["010"%char] ->
  0 <= v < 1000 -> stack_ok (w_stack w) ->
  read_int_node paths m1 m2 g w = (v, w).
Proof.
  intros Hn Hshow Hv Hst. unfold read_int_node, sys_open_rdonly, sys_read.
  rewrite Hn. simpl. rewrite Hshow.
  destruct (read3_atoi v (w_stack w) Hv Hst) as [Hlen Hatoi].
  destruct (Nat.ltb_spec (length (take 3 (CLib.printf_d v ++ ["010"%char]))) 1); [lia |].
  by rewrite Hatoi.
Qed.

Lemma get_radeon g w :
  bck_driver g = SYSFS_DRIVER_RADEON -> hw_ok w ->
  sysfs_backlight_get g w = (w_level w, w).
Proof.
  intros Hd (_ & [wr Ha] & _ & Hlv & Hmx & Hst). unfold sysfs_backlight_get.
  rewrite Hd. simpl.
  eapply read_int_node_ok; [rewrite Hd; exact Ha | reflexivity | lia | exact Hst].
Qed.

Lemma get_max_radeon g w :
  bck_driver g = SYSFS_DRIVER_RADEON -> hw_ok w ->
  sysfs_backlight_get_max g w = (w_max w, w).
Proof.
  intros Hd (_ & _ & [wr Hm] & Hlv & Hmx & Hst). unfold sysfs_backlight_get_max.
  rewrite Hd. simpl.
  eapply read_int_node_ok; [rewrite Hd; exact Hm | reflexivity | lia | exact Hst].
Qed.

Lemma set_radeon g w v :
  bck_driver g = SYSFS_DRIVER_RADEON -> hw_ok w -> 0 <= v <= w_max w ->
  sysfs_backlight_set g v w = set_level v w.
Proof.
  intros Hd ([r Hb] & _ & _ & _ & Hmx & _) Hv. unfold sysfs_backlight_set, sys_fopen_append.
  rewrite Hd, Hb. simpl. rewrite kstrtoul_printf_d by lia.
  destruct (Z.leb_spec v (w_max w)); [reflexivity | lia].
Qed.

Lemma hw_ok_set_level w v :
  hw_ok w -> 0 <= v <= w_max w -> hw_ok (set_level v w).
Proof. intros (Hb & Ha & Hm & _ & Hmx & Hst) Hv. unfold hw_ok; simpl. split_and!; auto; lia. Qed.

Lemma hw_ok_dbus w a b : hw_ok w -> hw_ok (mbpdbus_send_lcd_backlight a b w).
Proof. intros (Hb & Ha & Hm & Hlv & Hmx & Hst). unfold hw_ok; simpl. split_and!; auto; lia. Qed.

Lemma hw_ok_level w : hw_ok w -> 0 <= w_level w <= w_max w.
Proof. by intros (_ & _ & _ & H & _). Qed.

#[export] Hint Resolve hw_ok_set_level hw_ok_dbus hw_ok_level : pommed.

Lemma fix_config_spec g :
  sysfs_backlight_fix_config g =
  with_cfg (mk_sysfs_cfg
              (Z.min (if init (lcd_sysfs_cfg g) <? 0 then -1 else init (lcd_sysfs_cfg g))
                     (max (lcd_bck_info g)))
              (Z.min (Z.max 1 (step (lcd_sysfs_cfg g))) (c_div (max (lcd_bck_info g)) 2))) g.
Proof.
  unfold sysfs_backlight_fix_config. f_equal. f_equal; zcase; lia.
Qed.

Lemma hw_ok_access w :
  hw_ok w ->
  sys_access w (brightness.[SYSFS_DRIVER_RADEON]) W_OK = true /\
  sys_access w (actual_brightness.[SYSFS_DRIVER_RADEON]) R_OK = true.
Proof. intros ([r Hb] & [wr Ha] & _). unfold sys_access. by rewrite Hb, Ha. Qed.

(** What the probe does on a well-formed device: read the maximum, fix
    the configuration, write the initial level when there is one, and
    read the level back. *)
Lemma probe_radeon g w :
  hw_ok w ->
  r9600_sysfs_backlight_probe g w =
  let g1 := probed_cfg g w in
  let w1 := if init (lcd_sysfs_cfg g1) >? -1
            then set_level (init (lcd_sysfs_cfg g1)) w else w in
  (0, with_level (w_level w1) g1, w1).
Proof.
  intros Hhw. pose proof (hw_ok_level w Hhw).
  destruct (hw_ok_access w Hhw) as [Hw Hr].
  unfold r9600_sysfs_backlight_probe. rewrite Hw, Hr. simpl negb. cbv iota.
  rewrite get_max_radeon by done. fold (probed_cfg g w).
  assert (Hi : -1 <= init (lcd_sysfs_cfg (probed_cfg g w)) <= w_max w).
  { unfold probed_cfg. rewrite fix_config_spec. simpl. zcase; lia. }
  assert (Hd : bck_driver (probed_cfg g w) = SYSFS_DRIVER_RADEON) by reflexivity.
  destruct (Z.gtb_spec (init (lcd_sysfs_cfg (probed_cfg g w))) (-1)).
  - rewrite set_radeon, get_radeon by auto with pommed lia. reflexivity.
  - rewrite get_radeon by done. reflexivity.
Qed.

(** A step of the probed Radeon driver, in closed form. *)
Lemma step_radeon dir g w :
  sysfs_inv g w ->
  sysfs_backlight_step dir g w =
  (if dir =? STEP_UP then
     let nv := Z.min (w_level w + step (lcd_sysfs_cfg g)) (w_max w) in
     (with_level nv g, mbpdbus_send_lcd_backlight nv (w_level w) (set_level nv w))
   else if dir =? STEP_DOWN then
     let nv := Z.max (w_level w - step (lcd_sysfs_cfg g)) SYSFS_BACKLIGHT_OFF in
     (with_level nv g, mbpdbus_send_lcd_backlight nv (w_level w) (set_level nv w))
   else (g, w)).
Proof.
  intros (Hd & Hhw & Hm & Hl & Hs). pose proof (hw_ok_level w Hhw).
  pose proof (c_div2_bound (max (lcd_bck_info g))).
  unfold sysfs_backlight_step. rewrite Hd. simpl (1 =? 0). cbv iota.
  rewrite get_radeon by done. unfold step_commit. rewrite clamp_hi, clamp_lo, Hm.
  unfold SYSFS_BACKLIGHT_OFF in *.
  destruct (dir =? STEP_UP); [| destruct (dir =? STEP_DOWN)]; [..| reflexivity];
    rewrite set_radeon by (done || lia); reflexivity.
Qed.

(** C1: stepping a probed Radeon backlight reads the current level, adds
    (STEP_UP) or subtracts (STEP_DOWN) the configured step, clamps to
    [max_brightness] or to [SYSFS_BACKLIGHT_OFF], writes the new level to
    the device, sends the (new, old) pair on D-Bus and records it; any
    other direction changes nothing. *)
Theorem sysfs_backlight_step_spec dir g w :
  sysfs_inv g w ->
  sysfs_backlight_step dir g w =
  (if dir =? STEP_UP then
     let nv := Z.min (w_level w + step (lcd_sysfs_cfg g)) (w_max w) in
     (with_level nv g, mbpdbus_send_lcd_backlight nv (w_level w) (set_level nv w))
   else if dir =? STEP_DOWN then
     let nv := Z.max (w_level w - step (lcd_sysfs_cfg g)) SYSFS_BACKLIGHT_OFF in
     (with_level nv g, mbpdbus_send_lcd_backlight nv (w_level w) (set_level nv w))
   else (g, w)).
Proof. apply step_radeon. Qed.

(** A step keeps [sysfs_inv]. *)
Lemma step_radeon_inv dir g w :
  sysfs_inv g w ->
  sysfs_inv (sysfs_backlight_step dir g w).1 (sysfs_backlight_step dir g w).2.
Proof.
  intros Hinv. rewrite step_radeon by exact Hinv.
  pose proof Hinv as (Hd & Hhw & Hm & Hl & Hs). pose proof (hw_ok_level w Hhw).
  pose proof (c_div2_bound (max (lcd_bck_info g))).
  unfold SYSFS_BACKLIGHT_OFF.
  destruct (dir =? STEP_UP); [| destruct (dir =? STEP_DOWN)]; simpl;
    [..| exact Hinv];
    (split_and!; simpl; auto; [apply hw_ok_dbus, hw_ok_set_level | ..]; auto; lia).
Qed.

(** The probe of a well-formed device succeeds into [sysfs_inv]. *)
Lemma probe_radeon_inv g w :
  hw_ok w ->
  (r9600_sysfs_backlight_probe g w).1.1 = 0 /\
  sysfs_inv (r9600_sysfs_backlight_probe g w).1.2 (r9600_sysfs_backlight_probe g w).2.
Proof.
  intros Hhw. rewrite probe_radeon by exact Hhw. simpl.
  pose proof (hw_ok_level w Hhw).
  assert (Hc := fix_config_spec (with_max (w_max w) (with_driver SYSFS_DRIVER_RADEON g))).
  unfold probed_cfg. rewrite Hc. simpl.
  pose proof (c_div2_bound (w_max w)).
  split; [reflexivity |].
  zcase; split_and!; simpl; auto; try lia.
  all: apply hw_ok_set_level; [done | lia].
Qed.

(** C2: on a well-formed Radeon device, the probe succeeds (returns 0)
    whatever the configuration it starts from, and leaves the driver in
    its invariant: the level and the maximum are the device's and the
    step is within [[0, max/2]]. *)
Theorem r9600_probe_inv g w :
  hw_ok w ->
  (r9600_sysfs_backlight_probe g w).1.1 = 0 /\
  sysfs_inv (r9600_sysfs_backlight_probe g w).1.2 (r9600_sysfs_backlight_probe g w).2.
Proof. apply probe_radeon_inv. Qed.

(** C3: [sysfs_backlight_fix_config], given a non-negative maximum,
    leaves [init] in [[-1, max]] and [step] in [[min 1 (max/2), max/2]],
    and leaves untouched the values that are already in range. *)
Theorem fix_config_bounds g :
  0 <= max (lcd_bck_info g) ->
  let m := max (lcd_bck_info g) in
  let c := lcd_sysfs_cfg (sysfs_backlight_fix_config g) in
  (-1 <= init c <= m /\ Z.min 1 (c_div m 2) <= step c <= c_div m 2) /\
  (-1 <= init (lcd_sysfs_cfg g) <= m -> init c = init (lcd_sysfs_cfg g)) /\
  (1 <= step (lcd_sysfs_cfg g) <= c_div m 2 -> step c = step (lcd_sysfs_cfg g)).
Proof.
  intros Hm. rewrite fix_config_spec. simpl.
  pose proof (c_div2_bound _ Hm). zcase; split_and!; intros; lia.
Qed.

(** ** Reads and writes on any device *)

Lemma set_radeon_any g w v :
  bck_driver g = SYSFS_DRIVER_RADEON -> hw_ok w -> in_int v ->
  sysfs_backlight_set g v w =
  if (0 <=? v) && (v <=? w_max w) then set_level v w else w.
Proof.
  intros Hd ([r Hb] & _ & _ & _ & _ & _) Hv. unfold in_int, INT_MIN, INT_MAX in Hv.
  unfold sysfs_backlight_set, sys_fopen_append. rewrite Hd, Hb. simpl.
  destruct (Z.ltb_spec v 0).
  - rewrite kstrtoul_negative by done. destruct (Z.leb_spec 0 v); [lia | done].
  - rewrite kstrtoul_printf_d by lia. zcase; simpl; (reflexivity || lia).
Qed.

Lemma read_int_node_logmsg paths m1 m2 g w l m :
  (read_int_node paths m1 m2 g (logmsg l m w)).1 = (read_int_node paths m1 m2 g w).1.
Proof.
  unfold read_int_node, sys_open_rdonly, sys_read. simpl.
  destruct (w_fs w !! _) as [[[] wr k] |]; simpl; [| done | done].
  assert (node_show (logmsg l m w) k = node_show w k) as -> by (by destruct k).
  by case_match.
Qed.

Lemma read_int_node_world paths m1 m2 g w :
  (read_int_node paths m1 m2 g w).2 = w \/
  (read_int_node paths m1 m2 g w).2 = logmsg LOG_WARNING m1 w \/
  (read_int_node paths m1 m2 g w).2 = logmsg LOG_WARNING m2 w.
Proof. unfold read_int_node. repeat case_match; simpl; auto. Qed.

(** A node shows nothing or starts with a digit or a sign. *)
Lemma node_show_head w k c l : node_show w k = c :: l -> CLib.c_isspace c = false.
Proof.
  destruct k; simpl; [discriminate | ..];
    match goal with |- context [CLib.printf_d ?v] =>
      destruct (CLib.printf_d_cons v) as (c' & l' & -> & Hc) end;
    by intros [= <- _].
Qed.

(** Past a read of at most three bytes, byte 3 of the buffer is the
    stack's. *)
Lemma drop3_buffer (bytes st : list ascii) :
  (length bytes <= 3)%nat -> drop 3 (bytes ++ drop (length bytes) st) = drop 3 st.
Proof.
  intros Hl. rewrite drop_app_ge by done. rewrite drop_drop. f_equal. lia.
Qed.

(** When [buffer[3]] is not a digit, [atoi] stops inside the array and
    the value read has at most three characters. *)
Lemma read_int_node_bound paths m1 m2 g w :
  stack_ok (w_stack w) -> - 10 ^ 3 < (read_int_node paths m1 m2 g w).1 < 10 ^ 3.
Proof.
  intros Hst. unfold read_int_node, sys_read.
  destruct (sys_open_rdonly w _) as [k |]; simpl; [| lia].
  destruct (Nat.ltb_spec (length (take 3 (node_show w k))) 1); simpl; [lia |].
  pose proof (firstn_le_length 3 (node_show w k)).
  rewrite (CLib.atoi_take 3); [apply (CLib.atoi_take_bound 3) | lia | |].
  - rewrite drop3_buffer by lia. exact Hst.
  - intros c l E. destruct (node_show w k) as [|c' l'] eqn:Es; [simpl in *; lia |].
    simpl in E. injection E as <- _. exact (node_show_head w k c' l' Es).
Qed.

Lemma get_bound g w : stack_ok (w_stack w) -> - 10 ^ 3 < (sysfs_backlight_get g w).1 < 10 ^ 3.
Proof.
  unfold sysfs_backlight_get. case_match; [simpl; lia | apply read_int_node_bound].
Qed.

Lemma get_max_bound g w :
  stack_ok (w_stack w) -> - 10 ^ 3 < (sysfs_backlight_get_max g w).1 < 10 ^ 3.
Proof.
  unfold sysfs_backlight_get_max. case_match; [simpl; lia | apply read_int_node_bound].
Qed.

(** C15: writing a level and reading it back gives the level when it is
    within [[0, max_brightness]]; otherwise the kernel rejects the write
    and the read gives the previous level. *)
Theorem sysfs_backlight_get_set g w v :
  bck_driver g = SYSFS_DRIVER_RADEON -> hw_ok w -> in_int v ->
  (sysfs_backlight_get g (sysfs_backlight_set g v w)).1 =
  if (0 <=? v) && (v <=? w_max w) then v else w_level w.
Proof.
  intros Hd Hhw Hv. rewrite set_radeon_any by done.
  destruct ((0 <=? v) && (v <=? w_max w)) eqn:Hin.
  - apply andb_true_iff in Hin as [H1 H2]. apply Z.leb_le in H1, H2.
    rewrite get_radeon by auto with pommed. reflexivity.
  - by rewrite get_radeon.
Qed.

(** [sysfs_backlight_get] is idempotent: a second read with no
    write in between returns the same value (a failed read only adds a
    log line). *)
Theorem sysfs_backlight_get_idem g w :
  (sysfs_backlight_get g (sysfs_backlight_get g w).2).1 = (sysfs_backlight_get g w).1.
Proof.
  unfold sysfs_backlight_get. destruct (bck_driver g =? SYSFS_DRIVER_NONE); [done |].
  destruct (read_int_node_world actual_brightness
              "Could not open sysfs actual_brightness node"
              "Could not read sysfs actual_brightness node" g w) as [-> | [-> | ->]];
    rewrite ?read_int_node_logmsg; reflexivity.
Qed.

(** C19: with no driver selected ([bck_driver == SYSFS_DRIVER_NONE]) the
    driver is quiescent: get and get_max return 0 without touching the
    world, and a step in any direction changes nothing. *)
Theorem no_driver_quiescent dir g w :
  bck_driver g = SYSFS_DRIVER_NONE ->
  sysfs_backlight_get g w = (0, w) /\ sysfs_backlight_get_max g w = (0, w) /\
  sysfs_backlight_step dir g w = (g, w).
Proof.
  intros Hd. unfold sysfs_backlight_get, sysfs_backlight_get_max, sysfs_backlight_step.
  by rewrite Hd.
Qed.

(** C20: when the brightness node is not writable or the
    actual_brightness node is not readable, the probe fails with -1 and
    changes neither the driver's state nor the world. *)
Theorem r9600_probe_no_access g w :
  sys_access w (brightness.[SYSFS_DRIVER_RADEON]) W_OK = false \/
  sys_access w (actual_brightness.[SYSFS_DRIVER_RADEON]) R_OK = false ->
  r9600_sysfs_backlight_probe g w = (-1, g, w).
Proof.
  unfold r9600_sysfs_backlight_probe. intros [-> | ->]; [done |].
  by destruct (sys_access w (brightness.[SYSFS_DRIVER_RADEON]) W_OK).
Qed.

(** C21: the probe writes the configured initial level, clamped to
    [max_brightness], when it is non-negative, and performs no write when
    it is negative ([init == -1] after the fix-up). *)
Theorem r9600_probe_initial_level g w :
  hw_ok w ->
  (r9600_sysfs_backlight_probe g w).2 =
  if init (lcd_sysfs_cfg g) <? 0 then w
  else set_level (Z.min (init (lcd_sysfs_cfg g)) (w_max w)) w.
Proof.
  intros Hhw. pose proof (hw_ok_level w Hhw).
  rewrite probe_radeon by done. unfold probed_cfg. rewrite fix_config_spec. simpl.
  zcase; try reflexivity; lia.
Qed.

(** ** Findings *)

(** C24: the read buffer [char buffer[4]] is not NUL-terminated after
    [read].  When the level has three digits and the stale byte
    [buffer[3]] is a digit, [atoi] takes that byte as a fourth digit and
    then reads [buffer[4]], past the end of the array (undefined
    behaviour in C; the model reads the next byte of the stack).  When
    that byte ends the number, get returns [10 * level + d], above any
    three-digit [max_brightness], and a brightness-down key records
    [10 * level + d - step]: the clamp at [max] that brightness-up has
    is missing on this path, so the recorded level leaves
    [[0, max]]. *)
Theorem get_reads_past_buffer g w wr d :
  bck_driver g = SYSFS_DRIVER_RADEON ->
  w_fs w !! (actual_brightness.[SYSFS_DRIVER_RADEON]) = Some (mk_node true wr BlActual) ->
  100 <= w_level w < 1000 -> w_stack w !! 3%nat = Some d -> CLib.c_isdigit d = true ->
  CLib.ends_number (drop 4 (w_stack w)) = true ->
  (sysfs_backlight_get g w).1 = 10 * w_level w + CLib.digit_value d /\
  level (lcd_bck_info (sysfs_backlight_step STEP_DOWN g w).1) =
    Z.max (10 * w_level w + CLib.digit_value d - step (lcd_sysfs_cfg g)) SYSFS_BACKLIGHT_OFF.
Proof.
  intros Hd Ha Hl Hst Hdig Hend.
  assert (Hget : (sysfs_backlight_get g w).1 = 10 * w_level w + CLib.digit_value d).
  { unfold sysfs_backlight_get, read_int_node, sys_open_rdonly, sys_read.
    rewrite Hd. simpl. rewrite Ha. simpl.
    unfold CLib.printf_d. destruct (Z.ltb_spec (w_level w) 0); [lia |].
    assert (H3 : length (CLib.dec_digits CLib.printf_fuel (w_level w)) = 3%nat)
      by (apply CLib.dec_digits_length_eq; unfold CLib.printf_fuel; simpl; lia).
    rewrite (take_app_length' _ _ 3) by done. rewrite H3. cbn [Nat.ltb Nat.leb fst].
    rewrite (drop_S _ d 3) by exact Hst.
    unfold CLib.printf_fuel. rewrite CLib.atoi_dec_digits_cont by (simpl; lia).
    simpl. rewrite Hdig. by apply CLib.atoi_digits_stop. }
  split; [exact Hget |].
  unfold sysfs_backlight_step. rewrite Hd. simpl (1 =? 0). cbv iota.
  destruct (sysfs_backlight_get g w) as [v w'] eqn:E. simpl in Hget. subst v.
  unfold step_commit. simpl. apply clamp_lo.
Qed.

(** C25: [sysfs_backlight_get_max] reads only [sizeof(buffer) - 1 = 3]
    bytes, so a [max_brightness] of four digits is read as its first
    three: the driver then works with a tenth of the real range. *)
Theorem get_max_truncates g w wr :
  bck_driver g = SYSFS_DRIVER_RADEON ->
  w_fs w !! (max_brightness.[SYSFS_DRIVER_RADEON]) = Some (mk_node true wr BlMax) ->
  1000 <= w_max w < 10000 -> stack_ok (w_stack w) ->
  (sysfs_backlight_get_max g w).1 = w_max w / 10.
Proof.
  intros Hd Hm Hx Hst.
  unfold sysfs_backlight_get_max, read_int_node, sys_open_rdonly, sys_read.
  rewrite Hd. simpl. rewrite Hm. simpl.
  unfold CLib.printf_d, CLib.printf_fuel. destruct (Z.ltb_spec (w_max w) 0); [lia |].
  change 20%nat with (S 19). rewrite CLib.dec_digits_step by lia.
  assert (H3 : length (CLib.dec_digits 19 (w_max w / 10)) = 3%nat).
  { apply CLib.dec_digits_length_eq; [lia | simpl | lia].
    split; [apply Z.div_le_lower_bound | apply Z.div_lt_upper_bound]; lia. }
  rewrite <- app_assoc, (take_app_length' _ _ 3) by done.
  rewrite H3. cbn [Nat.ltb Nat.leb fst].
  change 19%nat with (S 18). apply CLib.atoi_dec_digits; [| exact Hst].
  split; [apply Z.div_pos | apply Z.div_lt_upper_bound]; simpl; lia.
Qed.

(** C26: when [max_brightness] cannot be opened, [get_max] returns 0
    and the probe still succeeds.  [fix_config] then clamps a configured
    initial level to 0 and the step to 0, and the probe writes 0: the
    panel is switched off and the keys do nothing.  This is stated for a
    configured initial level of 0 or more (with -1 the probe writes
    nothing), [brightness] writable, [actual_brightness] readable, and
    [buffer[3]] not a digit. *)
Theorem probe_unreadable_max_turns_off g w r wr :
  w_fs w !! (brightness.[SYSFS_DRIVER_RADEON]) = Some (mk_node r true BlBrightness) ->
  w_fs w !! (actual_brightness.[SYSFS_DRIVER_RADEON]) = Some (mk_node true wr BlActual) ->
  sys_open_rdonly w (max_brightness.[SYSFS_DRIVER_RADEON]) = None ->
  0 <= init (lcd_sysfs_cfg g) -> 0 <= w_max w -> stack_ok (w_stack w) ->
  (r9600_sysfs_backlight_probe g w).1.1 = 0 /\
  max (lcd_bck_info (r9600_sysfs_backlight_probe g w).1.2) = 0 /\
  step (lcd_sysfs_cfg (r9600_sysfs_backlight_probe g w).1.2) = 0 /\
  w_level (r9600_sysfs_backlight_probe g w).2 = 0.
Proof.
  intros Hb Ha Hm Hi Hx Hst.
  unfold r9600_sysfs_backlight_probe, sys_access. rewrite Hb, Ha. simpl.
  unfold sysfs_backlight_get_max, read_int_node. simpl. rewrite Hm. simpl.
  rewrite fix_config_spec. simpl.
  destruct (Z.ltb_spec (init (lcd_sysfs_cfg g)) 0); [lia |].
  replace (if init (lcd_sysfs_cfg g) >? 0 then 0 else init (lcd_sysfs_cfg g))
    with 0 by (zcase; lia).
  unfold sysfs_backlight_set, sys_fopen_append. simpl. rewrite Hb. simpl.
  change (10 * 0 + CLib.digit_value (CLib.digit_char 0)) with 0.
  destruct (Z.leb_spec 0 (w_max w)); [| lia].
  unfold sysfs_backlight_get. simpl.
  rewrite (read_int_node_ok _ _ _ _ _ BlActual wr 0); simpl; auto;
    change (c_div 0 2) with 0; lia.
Qed.

(** C27: for a maximum of 0 or 1, [fix_config] sets the step to
    [max / 2 = 0] whatever was configured, below the lower bound of 1
    it also enforces, so every step leaves the level unchanged. *)
Theorem fix_config_step_zero g :
  0 <= max (lcd_bck_info g) < 2 ->
  step (lcd_sysfs_cfg (sysfs_backlight_fix_config g)) = 0.
Proof.
  intros Hm. rewrite fix_config_spec. simpl.
  assert (c_div (max (lcd_bck_info g)) 2 = 0) as ->.
  { rewrite c_div_nonneg by lia. apply Z.div_small. lia. }
  lia.
Qed.

(** ** Witnesses *)

Ltac sample_facts :=
  unfold sysfs_inv, hw_ok, stack_ok, in_int, INT_MIN, INT_MAX;
  repeat split; try (eexists; reflexivity); try reflexivity;
  first [apply Z.leb_le | apply Z.ltb_lt]; vm_compute; reflexivity.

(** The two examples of the specification: max 255, step 50, level 240
    stepped up gives 255; level 20 stepped down gives 0. *)
Lemma sysfs_backlight_step_spec_witness :
  sysfs_inv (sample_globals 1 240 255 100 50) (sample_world radeon_fs 240 255 zero_stack) /\
  sysfs_backlight_step STEP_UP (sample_globals 1 240 255 100 50)
    (sample_world radeon_fs 240 255 zero_stack) =
  (with_level 255 (sample_globals 1 240 255 100 50),
   mbpdbus_send_lcd_backlight 255 240 (set_level 255 (sample_world radeon_fs 240 255 zero_stack))) /\
  sysfs_inv (sample_globals 1 20 255 100 50) (sample_world radeon_fs 20 255 zero_stack) /\
  sysfs_backlight_step STEP_DOWN (sample_globals 1 20 255 100 50)
    (sample_world radeon_fs 20 255 zero_stack) =
  (with_level 0 (sample_globals 1 20 255 100 50),
   mbpdbus_send_lcd_backlight 0 20 (set_level 0 (sample_world radeon_fs 20 255 zero_stack))).
Proof.
  assert (H1 : sysfs_inv (sample_globals 1 240 255 100 50)
                 (sample_world radeon_fs 240 255 zero_stack)) by sample_facts.
  assert (H2 : sysfs_inv (sample_globals 1 20 255 100 50)
                 (sample_world radeon_fs 20 255 zero_stack)) by sample_facts.
  split; [exact H1 | split; [| split; [exact H2 |]]].
  - rewrite (sysfs_backlight_step_spec STEP_UP _ _ H1). reflexivity.
  - rewrite (sysfs_backlight_step_spec STEP_DOWN _ _ H2). reflexivity.
Defined.

(** A configuration out of range ([init] 1000, [step] -3) is fixed by the
    probe. *)
Lemma r9600_probe_inv_witness :
  hw_ok (sample_world radeon_fs 240 255 zero_stack) /\
  (r9600_sysfs_backlight_probe (sample_globals 0 0 0 1000 (-3))
     (sample_world radeon_fs 240 255 zero_stack)).1.1 = 0 /\
  sysfs_inv (r9600_sysfs_backlight_probe (sample_globals 0 0 0 1000 (-3))
               (sample_world radeon_fs 240 255 zero_stack)).1.2
            (r9600_sysfs_backlight_probe (sample_globals 0 0 0 1000 (-3))
               (sample_world radeon_fs 240 255 zero_stack)).2.
Proof.
  assert (H : hw_ok (sample_world radeon_fs 240 255 zero_stack)) by sample_facts.
  split; [exact H | apply r9600_probe_inv; exact H].
Defined.

Lemma fix_config_bounds_witness :
  0 <= max (lcd_bck_info (sample_globals 1 0 255 (-7) 300)) /\
  let m := max (lcd_bck_info (sample_globals 1 0 255 (-7) 300)) in
  let c := lcd_sysfs_cfg (sysfs_backlight_fix_config (sample_globals 1 0 255 (-7) 300)) in
  (-1 <= init c <= m /\ Z.min 1 (c_div m 2) <= step c <= c_div m 2) /\
  (-1 <= init (lcd_sysfs_cfg (sample_globals 1 0 255 (-7) 300)) <= m ->
   init c = init (lcd_sysfs_cfg (sample_globals 1 0 255 (-7) 300))) /\
  (1 <= step (lcd_sysfs_cfg (sample_globals 1 0 255 (-7) 300)) <= c_div m 2 ->
   step c = step (lcd_sysfs_cfg (sample_globals 1 0 255 (-7) 300))).
Proof. split; [simpl; lia | apply fix_config_bounds; simpl; lia]. Defined.

Lemma sysfs_backlight_get_set_witness :
  bck_driver (sample_globals 1 240 255 100 50) = SYSFS_DRIVER_RADEON /\
  hw_ok (sample_world radeon_fs 240 255 zero_stack) /\ in_int 100 /\
  (sysfs_backlight_get (sample_globals 1 240 255 100 50)
     (sysfs_backlight_set (sample_globals 1 240 255 100 50) 100
        (sample_world radeon_fs 240 255 zero_stack))).1 = 100.
Proof.
  assert (H : hw_ok (sample_world radeon_fs 240 255 zero_stack)) by sample_facts.
  assert (Hv : in_int 100) by sample_facts.
  split; [reflexivity | split; [exact H | split; [exact Hv |]]].
  rewrite (sysfs_backlight_get_set (sample_globals 1 240 255 100 50) _ 100 eq_refl H Hv).
  reflexivity.
Defined.

Lemma no_driver_quiescent_witness :
  bck_driver (sample_globals 0 0 0 100 50) = SYSFS_DRIVER_NONE /\
  sysfs_backlight_step STEP_UP (sample_globals 0 0 0 100 50)
    (sample_world radeon_fs 240 255 zero_stack) =
  (sample_globals 0 0 0 100 50, sample_world radeon_fs 240 255 zero_stack).
Proof.
  split; [reflexivity |].
  apply (no_driver_quiescent STEP_UP _ (sample_world radeon_fs 240 255 zero_stack)).
  reflexivity.
Defined.

(** The brightness node is not writable. *)
Lemma r9600_probe_no_access_witness :
  sys_access (sample_world (<[brightness.[SYSFS_DRIVER_RADEON] :=
                               mk_node true false BlBrightness]> radeon_fs) 240 255 zero_stack)
    (brightness.[SYSFS_DRIVER_RADEON]) W_OK = false /\
  r9600_sysfs_backlight_probe (sample_globals 0 0 0 100 50)
    (sample_world (<[brightness.[SYSFS_DRIVER_RADEON] :=
                     mk_node true false BlBrightness]> radeon_fs) 240 255 zero_stack) =
  (-1, sample_globals 0 0 0 100 50,
   sample_world (<[brightness.[SYSFS_DRIVER_RADEON] :=
                   mk_node true false BlBrightness]> radeon_fs) 240 255 zero_stack).
Proof.
  split; [vm_compute; reflexivity |].
  apply r9600_probe_no_access. left. vm_compute. reflexivity.
Defined.

Lemma r9600_probe_initial_level_witness :
  hw_ok (sample_world radeon_fs 240 255 zero_stack) /\
  (r9600_sysfs_backlight_probe (sample_globals 0 0 0 300 50)
     (sample_world radeon_fs 240 255 zero_stack)).2 =
  set_level 255 (sample_world radeon_fs 240 255 zero_stack).
Proof.
  assert (H : hw_ok (sample_world radeon_fs 240 255 zero_stack)) by sample_facts.
  split; [exact H |]. rewrite (r9600_probe_initial_level _ _ H). reflexivity.
Defined.

(** A level of 240 with a stale ['7'] in [buffer[3]] and a NUL after
    the array: get reads 2407, and brightness-down with a step of 50
    records 2357, above the maximum of 255. *)
Lemma get_reads_past_buffer_witness :
  let g := sample_globals 1 240 255 100 50 in
  let w := sample_world radeon_fs 240 255 ["x"; "x"; "x"; "7"; "000"]%char in
  (sysfs_backlight_get g w).1 = 2407 /\
  level (lcd_bck_info (sysfs_backlight_step STEP_DOWN g w).1) = 2357 /\
  255 < 2357.
Proof.
  intros g w.
  destruct (get_reads_past_buffer g w false "7"%char) as [H1 H2];
    [reflexivity | vm_compute; reflexivity | simpl; lia | reflexivity | reflexivity
    | reflexivity |].
  split_and!; [rewrite H1 | rewrite H2 |]; reflexivity || lia.
Defined.

(** A [max_brightness] of 1023 is read as 102. *)
Lemma get_max_truncates_witness :
  stack_ok zero_stack /\
  (sysfs_backlight_get_max (sample_globals 1 0 0 100 50)
     (sample_world radeon_fs 240 1023 zero_stack)).1 = 102.
Proof.
  split; [reflexivity |].
  rewrite (get_max_truncates _ _ false); try reflexivity; simpl; lia.
Defined.

(** [max_brightness] is not readable. *)
Lemma probe_unreadable_max_turns_off_witness :
  sys_open_rdonly (sample_world (<[max_brightness.[SYSFS_DRIVER_RADEON] :=
                                   mk_node false false BlMax]> radeon_fs) 240 255 zero_stack)
    (max_brightness.[SYSFS_DRIVER_RADEON]) = None /\
  w_level (r9600_sysfs_backlight_probe (sample_globals 0 0 0 100 50)
             (sample_world (<[max_brightness.[SYSFS_DRIVER_RADEON] :=
                              mk_node false false BlMax]> radeon_fs) 240 255 zero_stack)).2 = 0.
Proof.
  split; [vm_compute; reflexivity |].
  apply (probe_unreadable_max_turns_off _ _ true false);
    try (vm_compute; reflexivity); simpl; lia.
Defined.

Lemma fix_config_step_zero_witness :
  0 <= max (lcd_bck_info (sample_globals 1 0 1 100 50)) < 2 /\
  step (lcd_sysfs_cfg (sysfs_backlight_fix_config (sample_globals 1 0 1 100 50))) = 0.
Proof. split; [simpl; lia | apply fix_config_step_zero; simpl; lia]. Defined.

End SysfsBacklight.
