(* ===== verification/SysfsFaults.v ===== *)
(** * Transient I/O failures in a backlight step (sysfs_backlight.c, lines 72-190)

    [sysfs_backlight_step] calls [sysfs_backlight_get] and then
    [sysfs_backlight_set], and both swallow their failures: a failed open
    or read makes get return 0, and a failed fopen makes set log and
    return.  This file follows a key press through each of these failures
    on a probed driver.  The failure is taken at the moment of the key
    press: [deny p m w] is the world [w] in which the node at [p] refuses
    the mode [m] (what an [open] or [fopen] failing with EACCES, EMFILE
    or ENOMEM looks like to the driver).
    - a failed write: the step still records the new level in
      [lcd_bck_info] and sends it on D-Bus, while the device keeps its
      level ([step_write_failure_records_level]);
    - a failed read: the step computes from 0, so a key press sets the
      level to [step] (up) or switches the panel off (down), whatever the
      level was ([step_read_failure_from_zero]).
    The specification (section 7) asks for a transient failure to be a
    no-op that leaves the in-memory level alone. *)

From S2P Require Import Prelude.
From S2P Require Import CLib.
From S2P Require Import Sysfs.
From S2P Require Import SysfsBacklight.

Open Scope Z_scope.
Open Scope pommed_scope.

Module SysfsFaults.

Import Sysfs SysfsBacklight.

(** ** The failing world *)

(** The node at [p] refuses [m]; everything else is as in [w]. *)
Definition deny (p : string) (m : access_mode) (w : world) : world :=
  mk_world (alter (fun n => match m with
                            | R_OK => mk_node false (n_write n) (n_kind n)
                            | W_OK => mk_node (n_read n) false (n_kind n)
                            end) p (w_fs w))
           (w_level w) (w_max w) (w_stack w) (w_log w) (w_dbus w).

(** ** Lemmas *)

Lemma radeon_paths_ne :
  brightness.[SYSFS_DRIVER_RADEON] <> actual_brightness.[SYSFS_DRIVER_RADEON].
Proof. vm_compute. discriminate. Qed.

(** Denying one node leaves the lookup of another unchanged. *)
Lemma deny_lookup_ne p q m w :
  p <> q -> w_fs (deny p m w) !! q = w_fs w !! q.
Proof. intros Hne. unfold deny. cbn [w_fs]. by apply lookup_alter_ne. Qed.

(** The node at [p] is found and refuses [m]. *)
Lemma deny_lookup p m w n :
  w_fs w !! p = Some n ->
  w_fs (deny p m w) !! p =
    Some (match m with
          | R_OK => mk_node false (n_write n) (n_kind n)
          | W_OK => mk_node (n_read n) false (n_kind n)
          end).
Proof. intros Hn. unfold deny. cbn [w_fs]. rewrite lookup_alter. case_decide; [| done]. by rewrite Hn. Qed.

(** With [brightness] writable, a value within [[0, w_max]] reaches the
    device; this needs nothing of the other nodes. *)
Lemma set_brightness_ok g w r v :
  bck_driver g = SYSFS_DRIVER_RADEON ->
  w_fs w !! (brightness.[SYSFS_DRIVER_RADEON]) = Some (mk_node r true BlBrightness) ->
  0 <= v <= w_max w -> w_max w < 1000 ->
  sysfs_backlight_set g v w = set_level v w.
Proof.
  intros Hd Hb Hv Hm. unfold sysfs_backlight_set, sys_fopen_append.
  rewrite Hd, Hb. simpl. rewrite kstrtoul_printf_d by lia.
  destruct (Z.leb_spec v (w_max w)); [reflexivity | lia].
Qed.

(** With [brightness] not writable, set logs and changes nothing else. *)
Lemma set_denied g v w :
  bck_driver g = SYSFS_DRIVER_RADEON ->
  sys_fopen_append w (brightness.[SYSFS_DRIVER_RADEON]) = None ->
  sysfs_backlight_set g v w = logmsg LOG_WARNING "Could not open sysfs brightness node" w.
Proof. intros Hd Hf. unfold sysfs_backlight_set. by rewrite Hd, Hf. Qed.

(** With only [brightness] refused, get still reads the device. *)
Lemma get_write_denied g w :
  sysfs_inv g w ->
  sysfs_backlight_get g (deny (brightness.[SYSFS_DRIVER_RADEON]) W_OK w) =
    (w_level w, deny (brightness.[SYSFS_DRIVER_RADEON]) W_OK w).
Proof.
  intros (Hd & (_ & [wr Ha] & _ & Hlv & Hmx & Hst) & _). unfold sysfs_backlight_get.
  rewrite Hd. simpl (1 =? 0). cbv iota.
  eapply read_int_node_ok with (k := BlActual) (wr := wr); [| reflexivity | lia | exact Hst].
  rewrite Hd, deny_lookup_ne; [exact Ha | apply radeon_paths_ne].
Qed.

(** With [actual_brightness] refused, get logs and returns 0. *)
Lemma get_read_denied g w :
  sysfs_inv g w ->
  sysfs_backlight_get g (deny (actual_brightness.[SYSFS_DRIVER_RADEON]) R_OK w) =
    (0, logmsg LOG_WARNING "Could not open sysfs actual_brightness node"
          (deny (actual_brightness.[SYSFS_DRIVER_RADEON]) R_OK w)).
Proof.
  intros (Hd & (_ & [wr Ha] & _) & _). unfold sysfs_backlight_get, read_int_node.
  rewrite Hd. simpl (1 =? 0). cbv iota. unfold sys_open_rdonly.
  by rewrite (deny_lookup _ _ _ _ Ha).
Qed.

(** ** Theorems *)

(** C12: a failed write is not a no-op.  When the [brightness] node
    cannot be opened at the time of a key press, [sysfs_backlight_step]
    logs the failure, but it still sends the new level on D-Bus and
    records it in [lcd_bck_info.level], while the device keeps its old
    level.  The cached level and the hardware then disagree until the
    next successful step, and D-Bus clients are told of a change that
    did not happen.  The specification says a transient failure leaves
    the in-memory level alone, and notifies only on a successful step. *)
Theorem step_write_failure_records_level dir g w :
  sysfs_inv g w -> dir = STEP_UP \/ dir = STEP_DOWN ->
  let w0 := deny (brightness.[SYSFS_DRIVER_RADEON]) W_OK w in
  let nv := if dir =? STEP_UP then Z.min (w_level w + step (lcd_sysfs_cfg g)) (w_max w)
            else Z.max (w_level w - step (lcd_sysfs_cfg g)) SYSFS_BACKLIGHT_OFF in
  sysfs_backlight_step dir g w0 =
    (with_level nv g,
     mbpdbus_send_lcd_backlight nv (w_level w)
       (logmsg LOG_WARNING "Could not open sysfs brightness node" w0)).
Proof.
  intros Hinv Hdir; cbv zeta. pose proof Hinv as (Hd & ([r Hb] & _) & Hm & _).
  unfold sysfs_backlight_step. rewrite Hd. simpl (1 =? 0). cbv iota.
  rewrite (get_write_denied g w Hinv). unfold step_commit.
  assert (Hf : sys_fopen_append (deny (brightness.[SYSFS_DRIVER_RADEON]) W_OK w)
                (brightness.[SYSFS_DRIVER_RADEON]) = None).
  { unfold sys_fopen_append. by rewrite (deny_lookup _ _ _ _ Hb). }
  rewrite !(fun v => set_denied g v _ Hd Hf).
  rewrite clamp_hi, clamp_lo, Hm.
  destruct Hdir as [-> | ->]; reflexivity.
Qed.

(** C14: a failed read is not a no-op either.  When [actual_brightness]
    cannot be opened at the time of a key press, [sysfs_backlight_get]
    returns 0 and the step computes from there: brightness-up sets the
    panel to [step] (however bright it was) and brightness-down switches
    it off ([SYSFS_BACKLIGHT_OFF]), and the change is written, sent on
    D-Bus as coming from 0, and recorded. *)
Theorem step_read_failure_from_zero dir g w :
  sysfs_inv g w -> dir = STEP_UP \/ dir = STEP_DOWN ->
  let w0 := deny (actual_brightness.[SYSFS_DRIVER_RADEON]) R_OK w in
  let w1 := logmsg LOG_WARNING "Could not open sysfs actual_brightness node" w0 in
  let nv := if dir =? STEP_UP then step (lcd_sysfs_cfg g) else SYSFS_BACKLIGHT_OFF in
  sysfs_backlight_step dir g w0 =
    (with_level nv g, mbpdbus_send_lcd_backlight nv 0 (set_level nv w1)).
Proof.
  intros Hinv Hdir; cbv zeta. pose proof Hinv as (Hd & ([r Hb] & _ & _ & Hlv & Hmx & _) & Hm & _ & Hs).
  assert (0 <= c_div (max (lcd_bck_info g)) 2 <= max (lcd_bck_info g))
    by (apply c_div2_bound; lia).
  unfold sysfs_backlight_step. rewrite Hd. simpl (1 =? 0). cbv iota.
  rewrite (get_read_denied g w Hinv). unfold step_commit.
  rewrite clamp_hi, clamp_lo. unfold SYSFS_BACKLIGHT_OFF in *.
  destruct Hdir as [-> | ->]; simpl (_ =? _); cbv iota;
    [rewrite Z.min_l by lia | rewrite Z.max_r by lia];
    (rewrite set_brightness_ok with (r := r); [reflexivity | exact Hd | | simpl; lia | simpl; lia]);
    exact (eq_trans (deny_lookup_ne _ _ R_OK w (not_eq_sym radeon_paths_ne)) Hb).
Qed.

(** ** Witnesses *)

(** The panel at 200 of 255 with a step of 25.  Brightness-up with the
    write refused: the driver records 225 and tells D-Bus 200 -> 225,
    while the device stays at 200. *)
Lemma step_write_failure_records_level_witness :
  let g := sample_globals 1 200 255 100 25 in
  let w := sample_world radeon_fs 200 255 zero_stack in
  let w0 := deny (brightness.[SYSFS_DRIVER_RADEON]) W_OK w in
  sysfs_inv g w /\
  sysfs_backlight_step STEP_UP g w0 =
    (with_level 225 g,
     mbpdbus_send_lcd_backlight 225 200
       (logmsg LOG_WARNING "Could not open sysfs brightness node" w0)) /\
  w_level w0 = 200.
Proof.
  intros g w w0.
  assert (H1 : sysfs_inv g w) by (unfold g, w; sample_facts).
  split_and!; [exact H1 | | reflexivity].
  exact (step_write_failure_records_level STEP_UP g w H1 (or_introl eq_refl)).
Defined.

(** The same panel, brightness-down with the read refused: the panel is
    switched off, and D-Bus is told 0 -> 0. *)
Lemma step_read_failure_from_zero_witness :
  let g := sample_globals 1 200 255 100 25 in
  let w := sample_world radeon_fs 200 255 zero_stack in
  let w0 := deny (actual_brightness.[SYSFS_DRIVER_RADEON]) R_OK w in
  sysfs_inv g w /\
  sysfs_backlight_step STEP_DOWN g w0 =
    (with_level 0 g,
     mbpdbus_send_lcd_backlight 0 0
       (set_level 0 (logmsg LOG_WARNING "Could not open sysfs actual_brightness node" w0))).
Proof.
  intros g w w0.
  assert (H1 : sysfs_inv g w) by (unfold g, w; sample_facts).
  split; [exact H1 |].
  exact (step_read_failure_from_zero STEP_DOWN g w H1 (or_intror eq_refl)).
Defined.

End SysfsFaults.
