(* ===== verification/SysfsTypes.v ===== *)
(** * The C types of the sysfs driver's globals under any kernel

    The globals of sysfs_backlight.c ([bck_driver], the [int] fields of
    [lcd_bck_info] and of [lcd_sysfs_cfg]) are C [int]s.  The values the
    driver stores in them come from [atoi] of what the kernel answers,
    from the configuration, and from the stepping arithmetic.  This file
    shows that they stay within [int] whatever the device shows (any
    level and maximum, missing nodes, failed opens and reads, another
    writer changing the level between two key presses), as long as each
    read stays inside [char buffer[4]]: the stale byte [buffer[3]] is not
    a digit ([stack_ok]).  When it is one, [atoi] reads past the array
    ([SysfsBacklight.get_reads_past_buffer]) and no bound holds.  That is
    the type invariant [globals_typed].  It is proved through
    [probed_bounds], the bounds a probe establishes and every step
    keeps.  Unlike [SysfsBacklight.sysfs_inv], it assumes nothing of the
    device. *)

From S2P Require Import Prelude.
From S2P Require Import Sysfs.
From S2P Require Import SysfsBacklight.

Open Scope Z_scope.

Module SysfsTypes.

Import Sysfs SysfsBacklight.

(** Every global of the driver holds a value of its C type [int]. *)
Definition globals_typed (g : globals) : Prop :=
  in_int (bck_driver g) /\ in_int (level (lcd_bck_info g)) /\
  in_int (max (lcd_bck_info g)) /\
  in_int (init (lcd_sysfs_cfg g)) /\ in_int (step (lcd_sysfs_cfg g)).

(** The bounds after a probe: [atoi] of at most four characters for the
    maximum, the fixed configuration, and a level one step away from
    such a read. *)
Definition probed_bounds (g : globals) : Prop :=
  bck_driver g = SYSFS_DRIVER_RADEON /\
  - 10 ^ 4 < max (lcd_bck_info g) < 10 ^ 4 /\
  - 15000 < level (lcd_bck_info g) < 15000 /\
  - 10 ^ 4 < init (lcd_sysfs_cfg g) < 10 ^ 4 /\
  - 5000 < step (lcd_sysfs_cfg g) < 5000.

(** Key presses, each against the world the kernel presents at that
    time. *)
Definition run_steps (steps : list (Z * world)) (g : globals) : globals :=
  fold_left (fun g dw => (sysfs_backlight_step dw.1 g dw.2).1) steps g.

(** ** Lemmas *)

Lemma probed_bounds_typed g : probed_bounds g -> globals_typed g.
Proof.
  unfold probed_bounds, globals_typed, in_int, INT_MIN, INT_MAX, SYSFS_DRIVER_RADEON.
  intros (-> & ? & ? & ? & ?). split_and!; lia.
Qed.

(** The driver's calls leave the stack bytes alone. *)
Lemma get_stack g w : w_stack (sysfs_backlight_get g w).2 = w_stack w.
Proof.
  unfold sysfs_backlight_get. case_match; [done |].
  by destruct (read_int_node_world actual_brightness
                 "Could not open sysfs actual_brightness node"
                 "Could not read sysfs actual_brightness node" g w) as [-> | [-> | ->]].
Qed.

Lemma get_max_stack g w : w_stack (sysfs_backlight_get_max g w).2 = w_stack w.
Proof.
  unfold sysfs_backlight_get_max. case_match; [done |].
  by destruct (read_int_node_world max_brightness
                 "Could not open sysfs max_brightness node"
                 "Could not read sysfs max_brightness node" g w) as [-> | [-> | ->]].
Qed.

Lemma set_stack g v w : w_stack (sysfs_backlight_set g v w) = w_stack w.
Proof. unfold sysfs_backlight_set, node_store. by repeat case_match. Qed.

Lemma c_div2_small m : - 10 ^ 4 < m < 10 ^ 4 -> - 5000 < c_div m 2 < 5000.
Proof.
  unfold c_div. intros Hm. destruct (Z.leb_spec 0 m).
  - rewrite Z.quot_div_nonneg by lia. Z.to_euclidean_division_equations. lia.
  - replace m with (- (- m)) by lia. rewrite Z.quot_opp_l, Z.quot_div_nonneg by lia.
    Z.to_euclidean_division_equations. lia.
Qed.

Lemma probe_bounds g w g1 w1 :
  stack_ok (w_stack w) ->
  r9600_sysfs_backlight_probe g w = (0, g1, w1) -> probed_bounds g1.
Proof.
  intros Hst. unfold r9600_sysfs_backlight_probe.
  destruct (negb _); [discriminate |]. destruct (negb _); [discriminate |].
  set (g0 := with_driver SYSFS_DRIVER_RADEON g).
  destruct (sysfs_backlight_get_max g0 w) as [m w'] eqn:Em.
  pose proof (get_max_bound g0 w Hst) as Hm. rewrite Em in Hm. simpl in Hm.
  pose proof (get_max_stack g0 w) as Hs'. rewrite Em in Hs'. simpl in Hs'.
  set (g2 := sysfs_backlight_fix_config (with_max m g0)).
  destruct (sysfs_backlight_get g2 _) as [lv w''] eqn:El.
  pose proof (get_bound g2 (if init (lcd_sysfs_cfg g2) >? -1
                            then sysfs_backlight_set g2 (init (lcd_sysfs_cfg g2)) w' else w'))
    as Hl. rewrite El in Hl. simpl in Hl.
  specialize (Hl ltac:(case_match; rewrite ?set_stack; congruence)).
  intros [= <- _]. unfold g2 in *. rewrite fix_config_spec. simpl.
  pose proof (c_div2_small m ltac:(lia)). unfold probed_bounds. simpl.
  split_and!; try reflexivity; try lia; zcase; lia.
Qed.

Lemma step_bounds dir g w :
  stack_ok (w_stack w) -> probed_bounds g -> probed_bounds (sysfs_backlight_step dir g w).1.
Proof.
  intros Hst Hg. pose proof Hg as (Hd & Hm & Hl & Hi & Hs).
  unfold sysfs_backlight_step. rewrite Hd. simpl (1 =? 0). cbv iota.
  destruct (sysfs_backlight_get g w) as [v w'] eqn:E.
  pose proof (get_bound g w Hst) as Hv. rewrite E in Hv. simpl in Hv.
  unfold step_commit, SYSFS_BACKLIGHT_OFF.
  destruct (dir =? STEP_UP); [| destruct (dir =? STEP_DOWN)]; [..| exact Hg];
    unfold probed_bounds; simpl; split_and!; auto; zcase; lia.
Qed.

Lemma run_steps_bounds steps g :
  Forall (fun dw => stack_ok (w_stack dw.2)) steps ->
  probed_bounds g -> probed_bounds (run_steps steps g).
Proof.
  unfold run_steps. intros Hs. revert g.
  induction Hs as [|[dir w] steps Hw Hs IH]; intros g Hg; simpl; [done |].
  apply IH, step_bounds; [exact Hw | exact Hg].
Qed.

(** ** Theorems *)

(** C34: the type invariant of the driver.  After a successful probe,
    and after any sequence of key presses, every global of the driver
    holds a C [int], whatever the configuration was and whatever the
    device shows at each step (its level and maximum, missing nodes,
    failed opens or reads, changes of the level by another writer),
    provided that at the probe and at each key press the stale byte
    [buffer[3]] of the reads is not a digit, so that [atoi] stops inside
    the array. *)
Theorem driver_globals_typed g w g1 w1 steps :
  stack_ok (w_stack w) -> Forall (fun dw => stack_ok (w_stack dw.2)) steps ->
  r9600_sysfs_backlight_probe g w = (0, g1, w1) ->
  globals_typed (run_steps steps g1).
Proof.
  intros Hst Hs Hp. apply probed_bounds_typed, run_steps_bounds; [exact Hs |].
  exact (probe_bounds g w g1 w1 Hst Hp).
Qed.

(** ** Witness *)

(** A configuration with [init = INT_MAX] and a negative step, then up,
    down and up again while the device reads 255 of 255. *)
Lemma driver_globals_typed_witness :
  let w := sample_world radeon_fs 255 255 zero_stack in
  let g := sample_globals 0 0 0 INT_MAX (-7) in
  r9600_sysfs_backlight_probe g w =
    (0, (r9600_sysfs_backlight_probe g w).1.2, (r9600_sysfs_backlight_probe g w).2) /\
  globals_typed (run_steps [(STEP_UP, w); (STEP_DOWN, w); (STEP_UP, w)]
                           (r9600_sysfs_backlight_probe g w).1.2).
Proof.
  intros w g.
  assert (Hp : r9600_sysfs_backlight_probe g w =
    (0, (r9600_sysfs_backlight_probe g w).1.2, (r9600_sysfs_backlight_probe g w).2))
    by (vm_compute; reflexivity).
  split; [exact Hp |].
  refine (driver_globals_typed g w _ _ _ _ _ Hp); [reflexivity |].
  repeat constructor.
Defined.

End SysfsTypes.
