(* ===== verification/Machine.v ===== *)
(** * Machine identification and the capability table (src/src/mbpeventd.c)

    [Module Machine] models three things from mbpeventd.c:
    - [check_machine_smbios] (lines 141-192), which checks the effective
      uid, queries the SMBIOS vendor name and, for an Apple vendor only,
      the system name.  The result is a [machine_type] together with the
      trace of SMBIOS queries and log lines the function produces.
    - The four [machine_ops] bundles [mbp1_ops], [mbp2_ops], [mb1_ops] and
      [mb2_ops] (lines 52-90).  The function pointers they hold are
      constructors named after the C functions.
    - The [switch (machine)] of [main] (lines 273-308), which selects the
      bundle or exits with its status and log line.
    The abstract specification [identify_spec] is a lookup in a table of
    known model names.  The refinement theorem shows that the chain of
    [strcmp]s implements it. *)

From S2P Require Import Prelude.

Open Scope Z_scope.
Open Scope string_scope.

Module Machine.

(** ** Data *)

(** [machine_type] (mbpeventd.h, not in the sources). *)
Inductive machine_type :=
  | MACHINE_ERROR
  | MACHINE_UNKNOWN
  | MACHINE_MAC_UNKNOWN
  | MACHINE_MACBOOKPRO_1
  | MACHINE_MACBOOKPRO_2
  | MACHINE_MACBOOK_1
  | MACHINE_MACBOOK_2.

#[export] Instance machine_type_eq_dec : EqDecision machine_type.
Proof. solve_decision. Defined.

(** The function pointers of a [machine_ops] bundle. *)
Inductive lcd_probe_fn := x1600_backlight_probe | gma950_backlight_probe.
Inductive lcd_step_fn := x1600_backlight_step | gma950_backlight_step.
Inductive evdev_identify_fn := evdev_is_geyser3 | evdev_is_geyser4.

#[export] Instance lcd_probe_fn_eq_dec : EqDecision lcd_probe_fn.
Proof. solve_decision. Defined.
#[export] Instance lcd_step_fn_eq_dec : EqDecision lcd_step_fn.
Proof. solve_decision. Defined.
#[export] Instance evdev_identify_fn_eq_dec : EqDecision evdev_identify_fn.
Proof. solve_decision. Defined.

Record machine_ops := mk_machine_ops {
  type : machine_type;
  lcd_backlight_probe : lcd_probe_fn;
  lcd_backlight_step : lcd_step_fn;
  evdev_identify : evdev_identify_fn
}.

Definition mbp1_ops : machine_ops :=
  mk_machine_ops MACHINE_MACBOOKPRO_1 x1600_backlight_probe x1600_backlight_step evdev_is_geyser3.
Definition mbp2_ops : machine_ops :=
  mk_machine_ops MACHINE_MACBOOKPRO_2 x1600_backlight_probe x1600_backlight_step evdev_is_geyser4.
Definition mb1_ops : machine_ops :=
  mk_machine_ops MACHINE_MACBOOK_1 gma950_backlight_probe gma950_backlight_step evdev_is_geyser3.
Definition mb2_ops : machine_ops :=
  mk_machine_ops MACHINE_MACBOOK_2 gma950_backlight_probe gma950_backlight_step evdev_is_geyser4.

(** ** [check_machine_smbios] *)

(** What the function observes: its effective uid and the two SMBIOS
    strings ([SMBIOSGetVendorName], [SMBIOSGetSystemName]). *)
Record smbios_env := mk_smbios_env {
  euid : Z;
  vendor_name : string;
  system_name : string
}.

Inductive smbios_event :=
  | QueryVendorName
  | QuerySystemName
  | Log (e : log_entry).

Definition check_machine_smbios (env : smbios_env) : machine_type * list smbios_event :=
  if negb (Z.eqb (euid env) 0) then
    (MACHINE_ERROR,
     [Log (mk_log LOG_ERR "root privileges needed for SMBIOS machine detection")])
  else
    let prop := vendor_name env in
    let ret := if String.eqb prop "Apple Computer, Inc." then MACHINE_MAC_UNKNOWN
               else MACHINE_UNKNOWN in
    if bool_decide (ret <> MACHINE_MAC_UNKNOWN) then (ret, [QueryVendorName])
    else
      let prop := system_name env in
      let '(ret, logs) :=
        if String.eqb prop "MacBookPro1,1" || String.eqb prop "MacBookPro1,2"
        then (MACHINE_MACBOOKPRO_1, [])
        else if String.eqb prop "MacBookPro2,1" || String.eqb prop "MacBookPro2,2"
        then (MACHINE_MACBOOKPRO_2, [])
        else if String.eqb prop "MacBook1,1" then (MACHINE_MACBOOK_1, [])
        else if String.eqb prop "MacBook2,1" then (MACHINE_MACBOOK_2, [])
        else (ret, [Log (mk_log LOG_ERR ("Unknown Apple machine: " ++ prop))]) in
      let logs :=
        if bool_decide (ret <> MACHINE_MAC_UNKNOWN)
        then (logs ++ [Log (mk_log LOG_INFO ("SMBIOS machine check: running on a " ++ prop))])%list
        else logs in
      (ret, ([QueryVendorName; QuerySystemName] ++ logs)%list).

(** ** The [switch (machine)] of [main] *)

Inductive selection :=
  | Selected (ops : machine_ops)
  | ExitWith (status : Z) (logs : list log_entry).

Definition select_machine_ops (machine : machine_type) : selection :=
  match machine with
  | MACHINE_MACBOOKPRO_1 => Selected mbp1_ops
  | MACHINE_MACBOOKPRO_2 => Selected mbp2_ops
  | MACHINE_MACBOOK_1 => Selected mb1_ops
  | MACHINE_MACBOOK_2 => Selected mb2_ops
  | MACHINE_MAC_UNKNOWN => ExitWith 1 [mk_log LOG_ERR "Unknown Apple machine"]
  | MACHINE_UNKNOWN => ExitWith 1 [mk_log LOG_ERR "Unknown non-Apple machine"]
  | MACHINE_ERROR => ExitWith 1 []
  end.

(** ** Abstract specification *)

(** The machines the daemon recognises, by SMBIOS system name. *)
Definition known_models : list (string * machine_type) :=
  [("MacBookPro1,1", MACHINE_MACBOOKPRO_1); ("MacBookPro1,2", MACHINE_MACBOOKPRO_1);
   ("MacBookPro2,1", MACHINE_MACBOOKPRO_2); ("MacBookPro2,2", MACHINE_MACBOOKPRO_2);
   ("MacBook1,1", MACHINE_MACBOOK_1); ("MacBook2,1", MACHINE_MACBOOK_2)].

Fixpoint assoc_lookup (k : string) (l : list (string * machine_type)) : option machine_type :=
  match l with
  | [] => None
  | (k', v) :: l' => if String.eqb k k' then Some v else assoc_lookup k l'
  end.

Definition identify_spec (env : smbios_env) : machine_type :=
  if negb (Z.eqb (euid env) 0) then MACHINE_ERROR
  else if negb (String.eqb (vendor_name env) "Apple Computer, Inc.") then MACHINE_UNKNOWN
  else default MACHINE_MAC_UNKNOWN (assoc_lookup (system_name env) known_models).

(** The capability table as a partial function: defined exactly on the
    recognised machines. *)
Definition ops_table : list machine_ops := [mbp1_ops; mbp2_ops; mb1_ops; mb2_ops].

(** The flavour of each backlight function: a bundle must probe and step
    the same hardware. *)
Definition probe_flavour (f : lcd_probe_fn) : nat :=
  match f with x1600_backlight_probe => 0 | gma950_backlight_probe => 1 end.
Definition step_flavour (f : lcd_step_fn) : nat :=
  match f with x1600_backlight_step => 0 | gma950_backlight_step => 1 end.

(** ** Theorems *)

(** C4: the chain of [strcmp]s in [check_machine_smbios] implements
    the abstract identification: an error without root privileges,
    [MACHINE_UNKNOWN] for a vendor other than Apple, and otherwise the
    lookup of the system name in the table of known models, with
    [MACHINE_MAC_UNKNOWN] for a name not in it. *)
Theorem check_machine_smbios_refines env :
  (check_machine_smbios env).1 = identify_spec env.
Proof.
  unfold check_machine_smbios, identify_spec.
  destruct (Z.eqb (euid env) 0); [| reflexivity]. simpl.
  destruct (String.eqb (vendor_name env) "Apple Computer, Inc."); [| reflexivity]. simpl.
  destruct (String.eqb (system_name env) "MacBookPro1,1"),
           (String.eqb (system_name env) "MacBookPro1,2"),
           (String.eqb (system_name env) "MacBookPro2,1"),
           (String.eqb (system_name env) "MacBookPro2,2"),
           (String.eqb (system_name env) "MacBook1,1"),
           (String.eqb (system_name env) "MacBook2,1"); reflexivity.
Qed.

(** C16: without root privileges the identification fails with
    [MACHINE_ERROR], which is distinct from the unrecognised results.  It
    makes no SMBIOS query and logs one error line. *)
Theorem check_machine_smbios_no_root env :
  euid env <> 0 ->
  check_machine_smbios env =
  (MACHINE_ERROR, [Log (mk_log LOG_ERR "root privileges needed for SMBIOS machine detection")]) /\
  MACHINE_ERROR <> MACHINE_UNKNOWN /\ MACHINE_ERROR <> MACHINE_MAC_UNKNOWN.
Proof.
  intros H. unfold check_machine_smbios.
  destruct (Z.eqb_spec (euid env) 0); [contradiction |]. done.
Qed.

(** C17: run as root on a machine whose vendor is not exactly
    ["Apple Computer, Inc."], the identification returns
    [MACHINE_UNKNOWN] after the vendor query alone: the system name is
    never queried. *)
Theorem check_machine_smbios_non_apple env :
  euid env = 0 -> vendor_name env <> "Apple Computer, Inc." ->
  check_machine_smbios env = (MACHINE_UNKNOWN, [QueryVendorName]).
Proof.
  intros Hu Hv. unfold check_machine_smbios. rewrite Hu. simpl.
  apply String.eqb_neq in Hv. by rewrite Hv.
Qed.

(** C8: on an Apple machine whose system name is one of the six known
    names, the identification returns the table's machine after querying
    the vendor and the system name and logging one info line.  The
    [switch] in [main] then selects the bundle whose [type] is that
    machine. *)
Theorem known_model_selected env m :
  euid env = 0 -> vendor_name env = "Apple Computer, Inc." ->
  assoc_lookup (system_name env) known_models = Some m ->
  check_machine_smbios env =
    (m, [QueryVendorName; QuerySystemName;
         Log (mk_log LOG_INFO ("SMBIOS machine check: running on a " ++ system_name env))]) /\
  exists ops, select_machine_ops m = Selected ops /\ type ops = m.
Proof.
  intros Hu Hv Hl. unfold check_machine_smbios. rewrite Hu, Hv. simpl.
  revert Hl. unfold assoc_lookup, known_models.
  destruct (String.eqb (system_name env) "MacBookPro1,1"),
           (String.eqb (system_name env) "MacBookPro1,2"),
           (String.eqb (system_name env) "MacBookPro2,1"),
           (String.eqb (system_name env) "MacBookPro2,2"),
           (String.eqb (system_name env) "MacBook1,1"),
           (String.eqb (system_name env) "MacBook2,1");
    simpl; intros [= <-]; (split; [reflexivity | eexists; split; reflexivity]).
Qed.

(** C18: on an Apple machine with a system name that is not known, the
    identification returns [MACHINE_MAC_UNKNOWN] and logs the raw name for
    diagnosis.  [main] then exits with status 1 and no bundle. *)
Theorem unknown_apple_model env :
  euid env = 0 -> vendor_name env = "Apple Computer, Inc." ->
  assoc_lookup (system_name env) known_models = None ->
  check_machine_smbios env =
    (MACHINE_MAC_UNKNOWN,
     [QueryVendorName; QuerySystemName;
      Log (mk_log LOG_ERR ("Unknown Apple machine: " ++ system_name env))]) /\
  select_machine_ops MACHINE_MAC_UNKNOWN = ExitWith 1 [mk_log LOG_ERR "Unknown Apple machine"].
Proof.
  intros Hu Hv Hl. unfold check_machine_smbios. rewrite Hu, Hv. simpl.
  revert Hl. unfold assoc_lookup, known_models.
  destruct (String.eqb (system_name env) "MacBookPro1,1"),
           (String.eqb (system_name env) "MacBookPro1,2"),
           (String.eqb (system_name env) "MacBookPro2,1"),
           (String.eqb (system_name env) "MacBookPro2,2"),
           (String.eqb (system_name env) "MacBook1,1"),
           (String.eqb (system_name env) "MacBook2,1");
    simpl; intros; try discriminate; split; reflexivity.
Qed.

(** C7: the capability table is a partial function with no fallback
    entry.  It selects a bundle exactly for the four recognised machines,
    and that bundle is the table's entry whose [type] is the machine and
    whose probe and step drive the same backlight hardware.  Every other
    machine type makes [main] exit with status 1. *)
Theorem select_machine_ops_spec m :
  match select_machine_ops m with
  | Selected ops =>
      type ops = m /\ ops ∈ ops_table /\
      probe_flavour (lcd_backlight_probe ops) = step_flavour (lcd_backlight_step ops)
  | ExitWith status _ => status = 1 /\ m ∉ type <$> ops_table
  end.
Proof.
  destruct m; simpl; (split; [reflexivity |]);
    unfold ops_table; simpl; try set_solver.
  all: split; [set_solver | reflexivity].
Qed.

(** ** Witnesses *)

Lemma check_machine_smbios_no_root_witness :
  euid (mk_smbios_env 1000 "Apple Computer, Inc." "MacBookPro1,1") <> 0 /\
  check_machine_smbios (mk_smbios_env 1000 "Apple Computer, Inc." "MacBookPro1,1") =
  (MACHINE_ERROR, [Log (mk_log LOG_ERR "root privileges needed for SMBIOS machine detection")]).
Proof.
  split; [simpl; lia |]. apply check_machine_smbios_no_root. simpl. lia.
Defined.

(** The example of the specification: ["Dell Inc."]. *)
Lemma check_machine_smbios_non_apple_witness :
  euid (mk_smbios_env 0 "Dell Inc." "Latitude D620") = 0 /\
  vendor_name (mk_smbios_env 0 "Dell Inc." "Latitude D620") <> "Apple Computer, Inc." /\
  check_machine_smbios (mk_smbios_env 0 "Dell Inc." "Latitude D620") =
  (MACHINE_UNKNOWN, [QueryVendorName]).
Proof.
  split; [reflexivity | split; [discriminate |]].
  apply check_machine_smbios_non_apple; [reflexivity | discriminate].
Defined.

Lemma known_model_selected_witness :
  assoc_lookup "MacBookPro2,2" known_models = Some MACHINE_MACBOOKPRO_2 /\
  check_machine_smbios (mk_smbios_env 0 "Apple Computer, Inc." "MacBookPro2,2") =
    (MACHINE_MACBOOKPRO_2,
     [QueryVendorName; QuerySystemName;
      Log (mk_log LOG_INFO ("SMBIOS machine check: running on a " ++ "MacBookPro2,2"))]).
Proof.
  split; [reflexivity |].
  apply (known_model_selected (mk_smbios_env 0 "Apple Computer, Inc." "MacBookPro2,2"));
    reflexivity.
Defined.

Lemma unknown_apple_model_witness :
  assoc_lookup "MacBookAir1,1" known_models = None /\
  check_machine_smbios (mk_smbios_env 0 "Apple Computer, Inc." "MacBookAir1,1") =
    (MACHINE_MAC_UNKNOWN,
     [QueryVendorName; QuerySystemName;
      Log (mk_log LOG_ERR ("Unknown Apple machine: " ++ "MacBookAir1,1"))]).
Proof.
  split; [reflexivity |].
  apply (unknown_apple_model (mk_smbios_env 0 "Apple Computer, Inc." "MacBookAir1,1"));
    reflexivity.
Defined.

End Machine.
