(* ===== verification/Driver.v ===== *)
(** * The backlight driver interface

    [main] uses the LCD backlight only through the two function pointers
    of its [machine_ops] bundle.  [lcd_backlight_probe] is called once,
    and a negative result is fatal.  [lcd_backlight_step] is called with
    [STEP_UP] or [STEP_DOWN] for the brightness keys.  The class
    [LcdBacklight] is that interface on an abstract driver state: the two
    operations, the observations [lcd_level], [lcd_max] and
    [lcd_stepsize], the invariant [lcd_ok], and the precondition
    [lcd_ready] that the hardware must meet for the probe to succeed.

    [LcdBacklightLaws] is the contract from the specification (section
    4.4).  A ready device probes to 0 into the invariant.  A step keeps
    the invariant, the maximum and the step size.  A step up clamps to
    the maximum, a step down clamps to the off level 0, and any other
    direction is a no-op.  The level always stays within [[0, max]].
    The daemon's theorems ([EventLoop], [Daemon]) are proved against
    these laws only.

    [abs_step] is the abstract backlight of the specification: a level
    moved by a step and clamped.  [lcd_run_simulates] shows that every
    lawful driver is simulated by it over any sequence of keys.
    [sysfs_lcd] packages [SysfsBacklight] as an instance.
    [Module SysfsDriver] proves the laws for it ([sysfs_lcd_laws]), and
    so obtains the refinement of the abstract backlight by the translated
    C code. *)

From S2P Require Import Prelude.
From S2P Require Import Sysfs.
From S2P Require Import SysfsBacklight.

Open Scope Z_scope.

Class LcdBacklight (St : Type) := {
  lcd_probe : St -> Z * St;
  lcd_step : Z -> St -> St;
  lcd_level : St -> Z;
  lcd_max : St -> Z;
  lcd_stepsize : St -> Z;
  lcd_ok : St -> Prop;
  lcd_ready : St -> Prop
}.

(** The abstract backlight: one key press. *)
Definition abs_step (mx stepsize dir lvl : Z) : Z :=
  if dir =? SysfsBacklight.STEP_UP then Z.min (lvl + stepsize) mx
  else if dir =? SysfsBacklight.STEP_DOWN then Z.max (lvl - stepsize) 0
  else lvl.

Class LcdBacklightLaws (St : Type) `{LcdBacklight St} := {
  lcd_probe_ready : forall s,
    lcd_ready s -> (lcd_probe s).1 = 0 /\ lcd_ok (lcd_probe s).2;
  lcd_ok_bounds : forall s, lcd_ok s -> 0 <= lcd_level s <= lcd_max s;
  lcd_step_ok : forall dir s, lcd_ok s -> lcd_ok (lcd_step dir s);
  lcd_step_max : forall dir s, lcd_ok s -> lcd_max (lcd_step dir s) = lcd_max s;
  lcd_step_stepsize : forall dir s, lcd_ok s ->
    lcd_stepsize (lcd_step dir s) = lcd_stepsize s;
  lcd_step_level : forall dir s, lcd_ok s ->
    lcd_level (lcd_step dir s) = abs_step (lcd_max s) (lcd_stepsize s) dir (lcd_level s);
  lcd_step_other : forall dir s, lcd_ok s ->
    dir <> SysfsBacklight.STEP_UP -> dir <> SysfsBacklight.STEP_DOWN -> lcd_step dir s = s
}.

(** A sequence of key presses, as the event loop applies them. *)
Definition lcd_run {St} `{LcdBacklight St} (dirs : list Z) (s : St) : St :=
  fold_left (fun s d => lcd_step d s) dirs s.

(** The sysfs driver as an implementation of the interface: its state
    is the C globals with the environment. *)
Import Sysfs SysfsBacklight.

Definition sysfs_state : Type := globals * world.

#[export] Instance sysfs_lcd : LcdBacklight sysfs_state := {
  lcd_probe s := let '(r, g, w) := r9600_sysfs_backlight_probe s.1 s.2 in (r, (g, w));
  lcd_step dir s := sysfs_backlight_step dir s.1 s.2;
  lcd_level s := level (lcd_bck_info s.1);
  lcd_max s := max (lcd_bck_info s.1);
  lcd_stepsize s := step (lcd_sysfs_cfg s.1);
  lcd_ok s := sysfs_inv s.1 s.2;
  lcd_ready s := hw_ok s.2
}.

Section Simulation.
Context {St : Type} `{LcdBacklightLaws St}.

(** Every lawful driver is simulated by the abstract backlight: after
    any sequence of keys the invariant holds and the level is the
    abstract one. *)
Lemma lcd_run_simulates dirs s :
  lcd_ok s ->
  lcd_ok (lcd_run dirs s) /\ lcd_max (lcd_run dirs s) = lcd_max s /\
  lcd_stepsize (lcd_run dirs s) = lcd_stepsize s /\
  lcd_level (lcd_run dirs s) =
    fold_left (fun l d => abs_step (lcd_max s) (lcd_stepsize s) d l) dirs (lcd_level s).
Proof.
  revert s. induction dirs as [|d dirs IH]; intros s Hs; [done |]. simpl.
  destruct (IH (lcd_step d s)) as (Hok & Hm & Hst & Hl); [by apply lcd_step_ok |].
  rewrite Hm, Hst, lcd_step_max, lcd_step_stepsize in *; try done.
  split_and!; try done. rewrite Hl, lcd_step_level by done. done.
Qed.
End Simulation.

Module SysfsDriver.

#[export] Instance sysfs_lcd_laws : LcdBacklightLaws sysfs_state.
Proof.
  split; simpl.
  - intros [g w] Hhw. pose proof (probe_radeon_inv g w Hhw) as [H1 H2].
    cbn -[r9600_sysfs_backlight_probe].
    destruct (r9600_sysfs_backlight_probe g w) as [[r g'] w']. done.
  - intros [g w] (_ & Hhw & Hm & Hl & _). pose proof (hw_ok_level w Hhw). simpl in *. lia.
  - intros dir [g w] Hinv. apply step_radeon_inv, Hinv.
  - intros dir [g w] Hinv. rewrite step_radeon by exact Hinv.
    simpl. by repeat case_match.
  - intros dir [g w] Hinv. rewrite step_radeon by exact Hinv.
    simpl. by repeat case_match.
  - intros dir [g w] Hinv. rewrite step_radeon by exact Hinv.
    destruct Hinv as (_ & _ & Hm & Hl & _). simpl in *. unfold abs_step.
    rewrite Hl, Hm. by repeat case_match.
  - intros dir [g w] Hinv Hu Hd. rewrite step_radeon by exact Hinv.
    apply Z.eqb_neq in Hu, Hd. simpl in *. by rewrite Hu, Hd.
Qed.

(** C9: the sysfs driver refines the abstract backlight.  From any
    state in the driver invariant, any sequence of key presses keeps the
    invariant, and the level it reaches is the one the abstract clamped
    stepping computes from the same maximum and step. *)
Theorem sysfs_steps_refine dirs g w :
  sysfs_inv g w ->
  let s := fold_left (fun s d => sysfs_backlight_step d s.1 s.2) dirs (g, w) in
  sysfs_inv s.1 s.2 /\
  level (lcd_bck_info s.1) =
    fold_left (fun l d => abs_step (max (lcd_bck_info g)) (step (lcd_sysfs_cfg g)) d l)
              dirs (level (lcd_bck_info g)).
Proof.
  intros Hinv.
  destruct (@lcd_run_simulates sysfs_state sysfs_lcd sysfs_lcd_laws dirs (g, w) Hinv)
    as (Hok & _ & _ & Hl). split; [exact Hok | exact Hl].
Qed.

(** Up three times then down once, from level 100 of 255 with step 50. *)
Lemma sysfs_steps_refine_witness :
  sysfs_inv (sample_globals 1 100 255 100 50) (sample_world radeon_fs 100 255 zero_stack) /\
  level (lcd_bck_info
    (fold_left (fun s d => sysfs_backlight_step d s.1 s.2) [STEP_UP; STEP_UP; STEP_UP; STEP_DOWN]
       (sample_globals 1 100 255 100 50, sample_world radeon_fs 100 255 zero_stack)).1) = 200.
Proof.
  assert (H : sysfs_inv (sample_globals 1 100 255 100 50)
                (sample_world radeon_fs 100 255 zero_stack)) by sample_facts.
  split; [exact H |].
  destruct (sysfs_steps_refine [STEP_UP; STEP_UP; STEP_UP; STEP_DOWN] _ _ H) as [_ ->].
  reflexivity.
Defined.

End SysfsDriver.
