(* ===== verification/EventLoop.v ===== *)
(** * The event loop of [main] (src/src/mbpeventd.c, lines 362-448)

    The [while (running)] loop as a function of what the environment
    answers in each iteration: an [observation] gives the result of
    [evdev_reopen] (used only when a reopen is pending), the result of
    [poll] and its [errno], the [revents] of each [pollfd], the reading
    of [gettimeofday], and whether SIGINT or SIGTERM arrived.  The signal
    handler only clears [running], and the loop tests it on entry to the
    next iteration.

    [Section Loop] fixes the width of [long] ([long_bits], which is 32 on
    the i386 MacBooks and 64 on x86_64) and the condition
    [kbd_cfg.auto_on && has_kbd_backlight()] ([als_enabled]).  It works
    over any backlight driver given by the [LcdBacklight] interface.
    - [als_elapsed_usec] is the hand-written [timeval] subtraction of
      lines 419-433, at width [long_bits], with its wrap-around.
      [elapsed_usec] is the reference difference.
    - [scan_fds] is the [for] loop over the [pollfd]s (lines 400-414).
      [evdev_process_events] is the dispatch of brightness keys to the
      driver's step function.  Its body is in evdev.c, which is not in
      the sources, so it is modelled from the specification.
    - [loop_body] is one iteration, and [main_loop] runs the iterations
      over a list of observations.  It stops when [running] is false,
      when the loop [break]s, or when the list is exhausted
      ([LoopPending]: the daemon would go on).  Every run of the daemon
      is a prefix of such a list, and the function is structurally
      recursive, so it always returns; a run in which a signal arrives
      ends by that iteration whatever follows
      ([main_loop_terminates_on_signal]). *)

From S2P Require Import Prelude.
From S2P Require Import SysfsBacklight.
From S2P Require Import Driver.

Open Scope Z_scope.

Module EventLoop.

(** [LOOP_TIMEOUT] (mbpeventd.h, not in the sources), in milliseconds. *)
Definition LOOP_TIMEOUT : Z := 200.

Record timeval := mk_timeval { tv_sec : Z; tv_usec : Z }.

Definition valid_timeval (tv : timeval) : Prop := 0 <= tv_usec tv < 1000000.

(** The reference: the signed number of microseconds from [tv_als] to
    [tv_now]. *)
Definition elapsed_usec (tv_now tv_als : timeval) : Z :=
  (tv_sec tv_now - tv_sec tv_als) * 1000000 + (tv_usec tv_now - tv_usec tv_als).

Inductive key := KEY_BRIGHTNESSUP | KEY_BRIGHTNESSDOWN | KEY_OTHER.

(** The [revents] of one [pollfd] and the key events waiting on it. *)
Record pollfd_revents := mk_revents {
  POLLERR : bool; POLLHUP : bool; POLLNVAL : bool; POLLIN : bool;
  pending_keys : list key
}.

Record observation := mk_observation {
  ob_reopen_nfds : Z;
  ob_poll_ret : Z;
  ob_poll_eintr : bool;
  ob_revents : list pollfd_revents;
  ob_now : timeval;
  ob_signal : bool
}.

Inductive loop_event := AmbientCheck | LoopLog (e : log_entry).

Record loop_state (St : Type) := mk_loop_state {
  running : bool;
  reopen : bool;
  nfds : Z;
  tv_als : timeval;
  lcd : St;
  trace : list loop_event
}.
Arguments mk_loop_state {St}.
Arguments running {St}. Arguments reopen {St}. Arguments nfds {St}.
Arguments tv_als {St}. Arguments lcd {St}. Arguments trace {St}.

Inductive loop_exit := ExitNoDevices | ExitPollError.

Inductive step_result (St : Type) :=
  | Continue (st : loop_state St)
  | Break (why : loop_exit) (st : loop_state St).
Arguments Continue {St}. Arguments Break {St}.

Inductive loop_outcome := LoopStopped | LoopBroke (why : loop_exit) | LoopPending.

(** ** Sample runs on the sysfs driver *)

Import SysfsDriver.

(** The daemon just started: one event device, the last ambient check at
    998.9 s, the sysfs driver at level 100 of 255 with step 50. *)
Definition sample_st (rp : bool) : loop_state sysfs_state :=
  mk_loop_state true rp 1 (mk_timeval 998 900000)
    (SysfsBacklight.sample_globals 1 100 255 100 50,
     SysfsBacklight.sample_world SysfsBacklight.radeon_fs 100 255 SysfsBacklight.zero_stack) [].

Definition quiet_rev : pollfd_revents := mk_revents false false false false [].
Definition keys_rev (ks : list key) : pollfd_revents := mk_revents false false false true ks.
Definition hup_rev : pollfd_revents := mk_revents false true false false [].

(** An iteration where [poll] returns [ret] at time [1000.0001 s]. *)
Definition sample_ob (reopen_n ret : Z) (revs : list pollfd_revents) (sig : bool) : observation :=
  mk_observation reopen_n ret false revs (mk_timeval 1000 100) sig.

Section Loop.
Context {St : Type} `{LcdBacklight St}.
Variable long_bits : Z.
Variable als_enabled : bool.

(** Lines 419-433: [tv_diff = tv_now - tv_als] in microseconds, as the
    code computes it in [long] arithmetic. *)
Definition als_elapsed_usec (tv_now tv_als : timeval) : Z :=
  let sec := wrap_signed long_bits (tv_sec tv_now - tv_sec tv_als) in
  let sec := if sec <? 0 then 0 else sec in
  if sec =? 0 then wrap_signed long_bits (tv_usec tv_now - tv_usec tv_als)
  else
    let sec := sec - 1 in
    let usec := wrap_signed long_bits (1000000 - tv_usec tv_als + tv_usec tv_now) in
    wrap_signed long_bits (usec + wrap_signed long_bits (sec * 1000000)).

(** Line 435. *)
Definition als_check_due (tv_now tv_als : timeval) : bool :=
  als_elapsed_usec tv_now tv_als >=? 1000 * LOOP_TIMEOUT.

Definition with_lcd (s : St) (st : loop_state St) : loop_state St :=
  mk_loop_state (running st) (reopen st) (nfds st) (tv_als st) s (trace st).
Definition with_reopen (b : bool) (n : Z) (st : loop_state St) : loop_state St :=
  mk_loop_state (running st) b n (tv_als st) (lcd st) (trace st).
Definition emit (e : loop_event) (st : loop_state St) : loop_state St :=
  mk_loop_state (running st) (reopen st) (nfds st) (tv_als st) (lcd st) (trace st ++ [e]).
Definition ambient_check (now : timeval) (st : loop_state St) : loop_state St :=
  mk_loop_state (running st) (reopen st) (nfds st) now (lcd st) (trace st ++ [AmbientCheck]).
Definition stop_if (signal : bool) (st : loop_state St) : loop_state St :=
  mk_loop_state (running st && negb signal) (reopen st) (nfds st) (tv_als st) (lcd st) (trace st).

(** [evdev_process_events]: each brightness key steps the driver. *)
Definition evdev_process_events (keys : list key) (s : St) : St :=
  fold_left (fun s k =>
    match k with
    | KEY_BRIGHTNESSUP => lcd_step SysfsBacklight.STEP_UP s
    | KEY_BRIGHTNESSDOWN => lcd_step SysfsBacklight.STEP_DOWN s
    | KEY_OTHER => s
    end) keys s.

(** Lines 400-414: stop at the first [pollfd] in error and ask for a
    reopen; otherwise process the readable ones in order. *)
Fixpoint scan_fds (revs : list pollfd_revents) (st : loop_state St) : loop_state St :=
  match revs with
  | [] => st
  | r :: rs =>
      if POLLERR r || POLLHUP r || POLLNVAL r then
        with_reopen true (nfds st)
          (emit (LoopLog (mk_log LOG_WARNING "Error condition signaled on evdev, reopening")) st)
      else
        let st := if POLLIN r then with_lcd (evdev_process_events (pending_keys r) (lcd st)) st
                  else st in
        scan_fds rs st
  end.

(** Lines 372-385: the reopen of the event devices, when one is pending.
    [inl] is the [break]. *)
Definition loop_reopen (ob : observation) (st : loop_state St)
    : loop_state St + loop_state St :=
  if reopen st then
    let n := ob_reopen_nfds ob in
    if n <? 1 then
      inl (with_reopen true n
             (emit (LoopLog (mk_log LOG_ERR "No suitable event devices found (reopen)")) st))
    else inr (with_reopen false n st)
  else inr st.

(** Lines 387-447: [poll] and the handling of its three outcomes; the
    signal handler's [running = 0] is seen by the next test of the
    loop.  An iteration calls [gettimeofday] at most once: into [tv_now]
    at line 418 when [poll] returned events, into [tv_als] at line 446
    after the check on a timeout.  [ob_now] is the answer of that one
    call.  [als_enabled] is [kbd_cfg.auto_on && has_kbd_backlight()],
    taken to be the same in every iteration: the configuration does not
    change, and [has_kbd_backlight] (kbd_backlight.c, not in the
    sources) is the keyboard backlight [main] found at start-up. *)
Definition loop_poll (ob : observation) (st : loop_state St) : step_result St :=
  let ret := ob_poll_ret ob in
  if ret <? 0 then
    if ob_poll_eintr ob then Continue (stop_if (ob_signal ob) st)
    else Break ExitPollError (emit (LoopLog (mk_log LOG_ERR "poll() error")) st)
  else if negb (ret =? 0) then
    let st := scan_fds (take (Z.to_nat (nfds st)) (ob_revents ob)) st in
    let st := if als_enabled && als_check_due (ob_now ob) (tv_als st)
              then ambient_check (ob_now ob) st else st in
    Continue (stop_if (ob_signal ob) st)
  else
    let st := if als_enabled then ambient_check (ob_now ob) st else st in
    Continue (stop_if (ob_signal ob) st).

(** One iteration of [while (running)]. *)
Definition loop_body (ob : observation) (st : loop_state St) : step_result St :=
  match loop_reopen ob st with
  | inl st => Break ExitNoDevices st
  | inr st => loop_poll ob st
  end.

Fixpoint main_loop (obs : list observation) (st : loop_state St) : loop_outcome * loop_state St :=
  if running st then
    match obs with
    | [] => (LoopPending, st)
    | ob :: obs' =>
        match loop_body ob st with
        | Continue st' => main_loop obs' st'
        | Break why st' => (LoopBroke why, st')
        end
    end
  else (LoopStopped, st).

(** A [pollfd] without an error condition. *)
Definition no_error (r : pollfd_revents) : bool := negb (POLLERR r || POLLHUP r || POLLNVAL r).

Fixpoint ambient_count (tr : list loop_event) : nat :=
  match tr with
  | [] => 0
  | AmbientCheck :: tr' => S (ambient_count tr')
  | LoopLog _ :: tr' => ambient_count tr'
  end.

(** ** Lemmas *)

Lemma ambient_count_app a b : ambient_count (a ++ b) = (ambient_count a + ambient_count b)%nat.
Proof. induction a as [|[|] a IH]; simpl; lia. Qed.

Lemma scan_fds_keeps revs st :
  running (scan_fds revs st) = running st /\ tv_als (scan_fds revs st) = tv_als st /\
  nfds (scan_fds revs st) = nfds st /\
  ambient_count (trace (scan_fds revs st)) = ambient_count (trace st).
Proof.
  revert st. induction revs as [|r revs IH]; intros st; simpl; [done |].
  case_match; simpl.
  - rewrite ambient_count_app. simpl. split_and!; done || lia.
  - destruct (IH (if POLLIN r then with_lcd (evdev_process_events (pending_keys r) (lcd st)) st
                  else st)) as (-> & -> & -> & ->).
    by case_match.
Qed.

Lemma stop_if_running b st : running (stop_if b st) = running st && negb b.
Proof. reflexivity. Qed.

Lemma loop_reopen_keeps ob st :
  match loop_reopen ob st with
  | inl st' | inr st' => running st' = running st /\ lcd st' = lcd st
  end.
Proof.
  unfold loop_reopen. destruct (reopen st); [destruct (ob_reopen_nfds ob <? 1) |]; simpl; auto.
Qed.

(** Every [Continue] clears [running] exactly when a signal arrived. *)
Lemma loop_body_running ob st st' :
  loop_body ob st = Continue st' -> running st' = running st && negb (ob_signal ob).
Proof.
  unfold loop_body. pose proof (loop_reopen_keeps ob st) as Hk.
  destruct (loop_reopen ob st) as [st1 | st1]; [discriminate |]. destruct Hk as [Hr _].
  unfold loop_poll. repeat case_match; intros [= <-]; simpl; rewrite <- Hr;
    repeat match goal with |- context [running (scan_fds ?r ?s)] =>
      rewrite (proj1 (scan_fds_keeps r s)) end; reflexivity.
Qed.

Section WithLaws.
Context `{!LcdBacklightLaws St}.

Lemma evdev_process_events_ok keys s : lcd_ok s -> lcd_ok (evdev_process_events keys s).
Proof.
  unfold evdev_process_events. revert s.
  induction keys as [|k keys IH]; intros s Hs; simpl; [done |].
  apply IH. destruct k; [apply lcd_step_ok.. | ]; done.
Qed.

Lemma scan_fds_ok revs st : lcd_ok (lcd st) -> lcd_ok (lcd (scan_fds revs st)).
Proof.
  revert st. induction revs as [|r revs IH]; intros st Hs; simpl; [done |].
  case_match; [done |]. apply IH. case_match; [| done].
  by apply evdev_process_events_ok.
Qed.

Lemma loop_body_ok ob st :
  lcd_ok (lcd st) ->
  match loop_body ob st with Continue st' | Break _ st' => lcd_ok (lcd st') end.
Proof.
  intros Hs. unfold loop_body. pose proof (loop_reopen_keeps ob st) as Hk.
  destruct (loop_reopen ob st) as [st1 | st1]; destruct Hk as [_ Hl]; [by rewrite Hl |].
  rewrite <- Hl in Hs. unfold loop_poll.
  destruct (ob_poll_ret ob <? 0);
    [destruct (ob_poll_eintr ob) | destruct (negb (ob_poll_ret ob =? 0))];
    simpl; try done; repeat case_match; simpl; try done; by apply scan_fds_ok.
Qed.

Lemma main_loop_ok obs st :
  lcd_ok (lcd st) -> lcd_ok (lcd (main_loop obs st).2).
Proof.
  revert st. induction obs as [|ob obs IH]; intros st Hs; simpl; case_match; try done.
  pose proof (loop_body_ok ob st Hs) as Hb.
  destruct (loop_body ob st); simpl; auto.
Qed.
End WithLaws.

End Loop.

(** ** Theorems *)

Section LoopTheorems.
Context {St : Type} `{LcdBacklight St}.
Variable long_bits : Z.
Variable als_enabled : bool.

(** The [timeval] subtraction is exact when nothing wraps. *)
Lemma als_elapsed_usec_eq tv_now tv_als :
  32 <= long_bits -> valid_timeval tv_now -> valid_timeval tv_als ->
  tv_sec tv_als <= tv_sec tv_now ->
  (tv_sec tv_now - tv_sec tv_als + 1) * 1000000 <= 2 ^ (long_bits - 1) ->
  als_elapsed_usec long_bits tv_now tv_als = elapsed_usec tv_now tv_als.
Proof.
  intros Hb Hn Ha Hs Hfit. unfold valid_timeval in *.
  assert (Hp : 2 ^ 31 <= 2 ^ (long_bits - 1)) by (apply Z.pow_le_mono_r; lia).
  unfold als_elapsed_usec, elapsed_usec.
  rewrite (wrap_signed_small long_bits (tv_sec tv_now - tv_sec tv_als)) by lia.
  destruct (Z.ltb_spec (tv_sec tv_now - tv_sec tv_als) 0); [lia |].
  destruct (Z.eqb_spec (tv_sec tv_now - tv_sec tv_als) 0).
  - rewrite wrap_signed_small by lia. lia.
  - rewrite (wrap_signed_small _ (1000000 - _ + _)) by lia.
    rewrite (wrap_signed_small _ ((_ - 1) * 1000000)) by lia.
    rewrite wrap_signed_small by lia. lia.
Qed.

(** C5: on a [long] of at least 32 bits, the hand-written [timeval]
    subtraction of the ambient-light debounce (with its borrow from the
    seconds) computes exactly the elapsed time in microseconds, as long
    as the clock has not gone back a full second and the elapsed time
    fits in a [long]. *)
Theorem als_elapsed_usec_exact tv_now tv_als :
  32 <= long_bits -> valid_timeval tv_now -> valid_timeval tv_als ->
  tv_sec tv_als <= tv_sec tv_now ->
  (tv_sec tv_now - tv_sec tv_als + 1) * 1000000 <= 2 ^ (long_bits - 1) ->
  als_elapsed_usec long_bits tv_now tv_als = elapsed_usec tv_now tv_als.
Proof. apply als_elapsed_usec_eq. Qed.

(** C6: the debounce of the ambient-light check.  In an iteration
    where [poll] returns events, the check fires (and [tv_als] moves to
    the current time) exactly when at least [LOOP_TIMEOUT] ms have
    elapsed since the last check.  When [poll] times out it fires
    unconditionally.  Otherwise neither [tv_als] nor the checks
    change.  This holds with the check enabled and no reopen pending, on
    a [long] of at least 32 bits, with valid [timeval]s, a clock that
    has not gone back and an elapsed time that fits in a [long]; C28 and
    C29 show what happens outside the last two conditions. *)
Theorem loop_body_ambient_debounce ob st :
  32 <= long_bits -> als_enabled = true -> reopen st = false -> 0 <= ob_poll_ret ob ->
  valid_timeval (ob_now ob) -> valid_timeval (tv_als st) ->
  tv_sec (tv_als st) <= tv_sec (ob_now ob) ->
  (tv_sec (ob_now ob) - tv_sec (tv_als st) + 1) * 1000000 <= 2 ^ (long_bits - 1) ->
  exists st', loop_body long_bits als_enabled ob st = Continue st' /\
    let fired := (ob_poll_ret ob =? 0) ||
                 (elapsed_usec (ob_now ob) (tv_als st) >=? 1000 * LOOP_TIMEOUT) in
    tv_als st' = (if fired then ob_now ob else tv_als st) /\
    ambient_count (trace st') = (ambient_count (trace st) + if fired then 1 else 0)%nat.
Proof.
  intros Hb Ha Hr Hret Hn Hals Hs Hfit. unfold loop_body, loop_reopen, loop_poll.
  rewrite Hr, Ha. simpl.
  destruct (Z.ltb_spec (ob_poll_ret ob) 0); [lia |].
  destruct (Z.eqb_spec (ob_poll_ret ob) 0); simpl; eexists; split; try reflexivity.
  - simpl. rewrite ambient_count_app. simpl. split; [done | lia].
  - destruct (scan_fds_keeps (take (Z.to_nat (nfds st)) (ob_revents ob)) st)
      as (_ & Htv & _ & Hcnt).
    unfold als_check_due. rewrite Htv, als_elapsed_usec_eq by done.
    case_match; simpl; [rewrite ambient_count_app; simpl |]; split; auto; lia.
Qed.

(** C10: reopen semantics.  In an iteration that starts with a reopen
    pending, a reopen that finds no event device ends the loop
    ([break]).  A reopen that finds at least one device clears the flag
    and runs the iteration exactly as on the reopened set. *)
Theorem loop_body_reopen ob st :
  reopen st = true ->
  (ob_reopen_nfds ob < 1 ->
   exists st', loop_body long_bits als_enabled ob st = Break ExitNoDevices st') /\
  (1 <= ob_reopen_nfds ob ->
   loop_body long_bits als_enabled ob st =
   loop_body long_bits als_enabled ob (with_reopen false (ob_reopen_nfds ob) st)).
Proof.
  intros Hr. unfold loop_body, loop_reopen. rewrite Hr. simpl.
  split; intros Hn; destruct (Z.ltb_spec (ob_reopen_nfds ob) 1); try lia; eauto.
Qed.

(** C11: the scan of the [pollfd]s stops at the first one that reports
    [POLLERR], [POLLHUP] or [POLLNVAL].  The earlier ones are processed
    in order, a reopen is requested, and the events waiting on the later
    ones are not processed in this iteration. *)
Theorem scan_fds_stops_at_error pre r post st :
  Forall (fun r => no_error r = true) pre -> no_error r = false ->
  scan_fds (pre ++ r :: post) st =
  with_reopen true (nfds st)
    (emit (LoopLog (mk_log LOG_WARNING "Error condition signaled on evdev, reopening"))
       (scan_fds pre st)).
Proof.
  intros Hpre Hr. revert st. induction Hpre as [|r' pre Hr' Hpre IH]; intros st; simpl.
  - unfold no_error in Hr. apply negb_false_iff in Hr. by rewrite Hr.
  - unfold no_error in Hr'. apply negb_true_iff in Hr'. rewrite Hr'. rewrite IH.
    f_equal. by case_match.
Qed.

(** Cancellation.  When SIGINT or SIGTERM arrives during an
    iteration that does not break, the loop runs no further iteration:
    it exits cleanly ([LoopStopped]) with the state of that iteration,
    whatever the environment would answer next. *)
Theorem main_loop_signal_stops ob obs st st' :
  running st = true -> ob_signal ob = true ->
  loop_body long_bits als_enabled ob st = Continue st' ->
  main_loop long_bits als_enabled (ob :: obs) st = (LoopStopped, st').
Proof.
  intros Hrun Hsig Hb. simpl. rewrite Hrun, Hb.
  destruct obs; simpl;
    rewrite (loop_body_running long_bits als_enabled ob st st' Hb), Hsig, Hrun; reflexivity.
Qed.

(** C28: on a 32-bit [long] (the i386 MacBooks) the microsecond count
    overflows when the last check is between 2149 and 4294 seconds old,
    for example after a suspend.  The wrapped value is below the
    timeout, so an iteration with events does not run the due ambient
    check. *)
Theorem als_check_due_32bit_overflow tv_now tv_als :
  valid_timeval tv_now -> valid_timeval tv_als ->
  2149 <= tv_sec tv_now - tv_sec tv_als <= 4294 ->
  als_check_due 32 tv_now tv_als = false /\
  elapsed_usec tv_now tv_als >= 1000 * LOOP_TIMEOUT.
Proof.
  intros Hn Ha Hd. unfold valid_timeval, als_check_due, als_elapsed_usec, elapsed_usec in *.
  rewrite (wrap_signed_small 32 (tv_sec tv_now - tv_sec tv_als)) by (simpl; lia).
  destruct (Z.ltb_spec (tv_sec tv_now - tv_sec tv_als) 0); [lia |].
  destruct (Z.eqb_spec (tv_sec tv_now - tv_sec tv_als) 0); [lia |].
  rewrite (wrap_signed_small 32 (1000000 - _ + _)) by (simpl; lia).
  rewrite (wrap_signed_high 32 ((_ - 1) * 1000000)) by (simpl; lia).
  rewrite wrap_signed_small by (simpl; lia).
  unfold LOOP_TIMEOUT. simpl. split; [rewrite Z.geb_leb; apply Z.leb_gt; lia | lia].
Qed.

(** C29: the debounce uses the wall clock.  When the clock has been
    set back by at least one second ([tv_now] earlier than [tv_als]),
    the seconds difference is clamped to 0 and the check fires whenever
    the microsecond field alone has advanced by [LOOP_TIMEOUT] ms,
    although no time has elapsed since the last check. *)
Theorem als_check_due_clock_back tv_now tv_als :
  32 <= long_bits -> valid_timeval tv_now -> valid_timeval tv_als ->
  tv_sec tv_now < tv_sec tv_als -> tv_sec tv_als - tv_sec tv_now <= 2 ^ 31 ->
  als_check_due long_bits tv_now tv_als =
    (tv_usec tv_now - tv_usec tv_als >=? 1000 * LOOP_TIMEOUT) /\
  elapsed_usec tv_now tv_als < 0.
Proof.
  intros Hb Hn Ha Hs Hd. unfold valid_timeval, als_check_due, als_elapsed_usec, elapsed_usec in *.
  assert (Hp : 2 ^ 31 <= 2 ^ (long_bits - 1)) by (apply Z.pow_le_mono_r; lia).
  rewrite (wrap_signed_small long_bits (tv_sec tv_now - tv_sec tv_als)) by lia.
  destruct (Z.ltb_spec (tv_sec tv_now - tv_sec tv_als) 0); [| lia]. simpl.
  rewrite wrap_signed_small by lia. split; [reflexivity | lia].
Qed.

(** C31: termination.  A run in which SIGINT or SIGTERM arrives during
    some iteration does not go on forever: whatever the environment
    answers before and after, the loop stops (or breaks) by the end of
    that iteration, and [main] reaches its epilogue. *)
Theorem main_loop_terminates_on_signal pre ob post st :
  ob_signal ob = true ->
  (main_loop long_bits als_enabled (pre ++ ob :: post) st).1 <> LoopPending.
Proof.
  intros Hs. revert st. induction pre as [|ob' pre IH]; intros st; simpl.
  - destruct (running st) eqn:Hrun; [| discriminate].
    destruct (loop_body long_bits als_enabled ob st) as [st1 | why st1] eqn:Hb; [| discriminate].
    pose proof (loop_body_running long_bits als_enabled ob st st1 Hb) as Hr1.
    rewrite Hrun, Hs in Hr1. simpl in Hr1.
    destruct post; simpl; rewrite Hr1; discriminate.
  - destruct (running st); [| discriminate].
    destruct (loop_body long_bits als_enabled ob' st); [apply IH | discriminate].
Qed.

End LoopTheorems.

(** ** Witnesses *)

Ltac loop_facts :=
  repeat split; unfold valid_timeval; simpl;
  first [ reflexivity | lia | (apply Z.leb_le; vm_compute; reflexivity)
        | (apply Z.ltb_lt; vm_compute; reflexivity) ].

(** From 998.9 s to 1000.0001 s: 1100100 microseconds on 64 bits. *)
Lemma als_elapsed_usec_exact_witness :
  als_elapsed_usec 64 (mk_timeval 1000 100) (mk_timeval 998 900000) = 1100100.
Proof.
  rewrite (als_elapsed_usec_exact 64 (mk_timeval 1000 100) (mk_timeval 998 900000));
    [reflexivity | loop_facts ..].
Defined.

Lemma loop_body_ambient_debounce_witness :
  exists st', loop_body 64 true (sample_ob 1 1 [keys_rev [KEY_BRIGHTNESSUP]] false) (sample_st false)
              = Continue st' /\
    tv_als st' = mk_timeval 1000 100 /\ ambient_count (trace st') = 1%nat.
Proof.
  destruct (loop_body_ambient_debounce 64 true (sample_ob 1 1 [keys_rev [KEY_BRIGHTNESSUP]] false)
              (sample_st false)) as (st' & Hb & Ht & Hc); try loop_facts.
  exists st'. split; [exact Hb |]. split; [rewrite Ht | rewrite Hc]; reflexivity.
Defined.

Lemma loop_body_reopen_witness :
  exists st', loop_body 64 true (sample_ob 0 1 [] false) (sample_st true) = Break ExitNoDevices st'.
Proof.
  apply (proj1 (loop_body_reopen 64 true (sample_ob 0 1 [] false) (sample_st true) eq_refl)).
  simpl. lia.
Defined.

Lemma scan_fds_stops_at_error_witness :
  scan_fds [keys_rev [KEY_BRIGHTNESSUP]; hup_rev; keys_rev [KEY_BRIGHTNESSDOWN]] (sample_st false) =
  with_reopen true 1
    (emit (LoopLog (mk_log LOG_WARNING "Error condition signaled on evdev, reopening"))
       (scan_fds [keys_rev [KEY_BRIGHTNESSUP]] (sample_st false))).
Proof.
  apply (scan_fds_stops_at_error [keys_rev [KEY_BRIGHTNESSUP]] hup_rev [keys_rev [KEY_BRIGHTNESSDOWN]]);
    [repeat constructor | reflexivity].
Defined.

Lemma main_loop_signal_stops_witness :
  exists st', main_loop 64 true [sample_ob 1 0 [] true; sample_ob 1 1 [hup_rev] false] (sample_st false)
              = (LoopStopped, st').
Proof.
  eexists. apply (main_loop_signal_stops 64 true (sample_ob 1 0 [] true) _ (sample_st false));
    reflexivity.
Defined.

(** Last check at 0 s, now 3000 s: on 32 bits the check is not due. *)
Lemma als_check_due_32bit_overflow_witness :
  als_check_due 32 (mk_timeval 3000 0) (mk_timeval 0 0) = false /\
  elapsed_usec (mk_timeval 3000 0) (mk_timeval 0 0) >= 1000 * LOOP_TIMEOUT.
Proof. apply als_check_due_32bit_overflow; loop_facts. Defined.

(** The clock set back from 105.1 s to 100.9 s: the check fires. *)
Lemma als_check_due_clock_back_witness :
  als_check_due 64 (mk_timeval 100 900000) (mk_timeval 105 100000) = true /\
  elapsed_usec (mk_timeval 100 900000) (mk_timeval 105 100000) < 0.
Proof.
  assert (Hc : als_check_due 64 (mk_timeval 100 900000) (mk_timeval 105 100000) =
                (900000 - 100000 >=? 1000 * LOOP_TIMEOUT) /\
              elapsed_usec (mk_timeval 100 900000) (mk_timeval 105 100000) < 0)
    by (apply als_check_due_clock_back; loop_facts).
  destruct Hc as [E H]. split; [rewrite E; reflexivity | exact H].
Defined.

(** A key press, then a signal while [poll] times out, then more events:
    the loop ends at the signal. *)
Lemma main_loop_terminates_on_signal_witness :
  ob_signal (sample_ob 1 0 [] true) = true /\
  (main_loop 64 true ([sample_ob 1 1 [keys_rev [KEY_BRIGHTNESSUP]] false] ++
                      sample_ob 1 0 [] true :: [sample_ob 1 1 [] false]) (sample_st false)).1
  <> LoopPending.
Proof. split; [reflexivity |]. apply main_loop_terminates_on_signal. reflexivity. Defined.

End EventLoop.
