(* ===== verification/LoopReach.v ===== *)
(** * The event loop as a transition system (src/src/mbpeventd.c, lines 370-448)

    [EventLoop.main_loop] runs the loop over a given list of observations.
    This file looks at the same loop as a step relation: [loop_step st st']
    holds when some answer of the environment makes one iteration go from
    [st] to [st'] without leaving the loop.  The reachable states of a run
    are the [rtc] of that relation (stdpp's reflexive-transitive closure).
    Invariants are proved by rule induction over it.
    - [devices_open]: outside a pending reopen, the device set is not
      empty.  Every reachable state keeps it, so [poll] (line 387) is
      never called on an empty set ([poll_nfds]).
    - [main_loop_reachable]: every run of [main_loop] ends in a reachable
      state, or breaks out of one.  So the invariants of the relation hold
      of the function.
    - liveness: a device error seen by the scan makes the very next
      iteration reopen the devices (or end the loop). *)

From S2P Require Import Prelude.
From S2P Require Import Driver.
From S2P Require Import EventLoop.
From stdpp Require Import relations.

Open Scope Z_scope.

Module LoopReach.

Import EventLoop.

(** ** A sample run on the sysfs driver *)

(** The state after an iteration in which the only device hangs up. *)
Definition after_hup : loop_state Driver.sysfs_state :=
  match loop_body 64 true (sample_ob 1 1 [hup_rev] false) (sample_st false) with
  | Continue s | Break _ s => s
  end.

Section Reach.
Context {St : Type} `{LcdBacklight St}.
Variable long_bits : Z.
Variable als_enabled : bool.

(** One iteration of [while (running)] that stays in the loop. *)
Inductive loop_step : loop_state St -> loop_state St -> Prop :=
  | loop_step_continue ob st st' :
      running st = true -> loop_body long_bits als_enabled ob st = Continue st' ->
      loop_step st st'.

(** The number of devices the iteration passes to [poll] (line 387), or
    [None] when the reopen breaks out of the loop before it. *)
Definition poll_nfds (ob : observation) (st : loop_state St) : option Z :=
  match loop_reopen ob st with
  | inl _ => None
  | inr st1 => Some (nfds st1)
  end.

(** Outside a pending reopen, at least one event device is open. *)
Definition devices_open (st : loop_state St) : Prop := reopen st = false -> 1 <= nfds st.

(** ** Lemmas *)

Lemma scan_fds_reopen revs st :
  reopen (scan_fds revs st) = false -> reopen st = false.
Proof.
  revert st. induction revs as [|r revs IH]; intros st; simpl; [done |].
  case_match; [discriminate |]. intros Hr. apply IH in Hr. by case_match.
Qed.

Lemma scan_fds_error revs st :
  Exists (fun r => no_error r = false) revs -> reopen (scan_fds revs st) = true.
Proof.
  revert st. induction revs as [|r revs IH]; intros st Hex; [by inversion Hex |]. simpl.
  unfold no_error in Hex. case_match; [reflexivity |].
  apply IH. inversion Hex as [? ? Hr | ? ? Hr]; subst; [| done].
  rewrite H0 in Hr. discriminate.
Qed.

(** What [loop_poll] leaves of the device set: [nfds] unchanged, and a
    reopen requested only by the scan. *)
Lemma loop_poll_devices ob st st' :
  loop_poll long_bits als_enabled ob st = Continue st' ->
  nfds st' = nfds st /\ (reopen st' = false -> reopen st = false).
Proof.
  unfold loop_poll.
  repeat case_match; intros [= <-]; simpl; try done;
    match goal with |- context [scan_fds ?r ?s] =>
      pose proof (scan_fds_reopen r s); destruct (scan_fds_keeps r s) as (_ & _ & Hn & _)
    end; split; auto.
Qed.

Lemma loop_step_devices st st' : loop_step st st' -> devices_open st -> devices_open st'.
Proof.
  intros Hs Hd. destruct Hs as [ob st1 st2 _ Hb].
  unfold loop_body, loop_reopen in Hb. unfold devices_open in *.
  destruct (reopen st1) eqn:Hr.
  - destruct (Z.ltb_spec (ob_reopen_nfds ob) 1); [discriminate |].
    apply loop_poll_devices in Hb as [Hn Hre]. simpl in *. lia.
  - apply loop_poll_devices in Hb as [Hn Hre]. intros Hr'. rewrite Hn. auto.
Qed.

Lemma reachable_devices st0 st :
  devices_open st0 -> rtc loop_step st0 st -> devices_open st.
Proof. intros Hd Hr. induction Hr; eauto using loop_step_devices. Qed.

(** In a state with an open device set, [poll] gets at least one
    descriptor. *)
Lemma devices_open_poll st ob n :
  devices_open st -> poll_nfds ob st = Some n -> 1 <= n.
Proof.
  unfold poll_nfds, loop_reopen, devices_open.
  destruct (reopen st); [destruct (Z.ltb_spec (ob_reopen_nfds ob) 1) |];
    intros Hst [= <-]; simpl; auto; lia.
Qed.

(** [main_loop] runs along the relation. *)
Lemma main_loop_reachable obs st out st' :
  main_loop long_bits als_enabled obs st = (out, st') ->
  rtc loop_step st st' \/
  exists st1 ob why, rtc loop_step st st1 /\ running st1 = true /\
    loop_body long_bits als_enabled ob st1 = Break why st'.
Proof.
  revert st. induction obs as [|ob obs IH]; intros st; simpl.
  - case_match; intros [= _ <-]; left; constructor.
  - destruct (running st) eqn:Hrun; [| intros [= _ <-]; left; constructor].
    destruct (loop_body long_bits als_enabled ob st) as [st1 | why st1] eqn:Hb.
    + intros Hm. destruct (IH st1 Hm) as [Hr | (st2 & ob' & why & Hr & Hrun2 & Hb2)].
      * left. eapply rtc_l; [econstructor; eauto | exact Hr].
      * right. exists st2, ob', why. split; [eapply rtc_l; [econstructor; eauto | exact Hr] |].
        auto.
    + intros [= _ <-]. right. exists st, ob, why. split_and!; [constructor | done | done].
Qed.

End Reach.

(** ** Theorems *)

Section ReachTheorems.
Context {St : Type} `{LcdBacklight St}.
Variable long_bits : Z.
Variable als_enabled : bool.

(** C32: [poll] is never called on an empty device set.  From a start
    state with at least one device open (as [main] guarantees after
    [evdev_open]), in every reachable state of the loop an iteration
    either breaks in the reopen or passes at least one descriptor to
    [poll]. *)
Theorem poll_never_empty st0 st ob n :
  devices_open st0 -> rtc (loop_step long_bits als_enabled) st0 st ->
  poll_nfds ob st = Some n -> 1 <= n.
Proof.
  intros Hd Hr. apply devices_open_poll.
  exact (reachable_devices long_bits als_enabled st0 st Hd Hr).
Qed.

(** C33: liveness of the recovery.  When the scan sees an error
    condition on one of the open devices (a suspend removed them), the
    iteration stays in the loop with a reopen pending.  The very next
    iteration then calls [evdev_reopen]: it either breaks when no device
    comes back, or polls exactly the reopened set. *)
Theorem device_error_leads_to_reopen ob obs st :
  running st = true -> reopen st = false -> ob_signal ob = false -> 0 < ob_poll_ret ob ->
  Exists (fun r => no_error r = false) (take (Z.to_nat (nfds st)) (ob_revents ob)) ->
  exists st', loop_step long_bits als_enabled st st' /\ reopen st' = true /\
    running st' = true /\
    main_loop long_bits als_enabled (ob :: obs) st = main_loop long_bits als_enabled obs st' /\
    forall ob', poll_nfds ob' st' =
                (if ob_reopen_nfds ob' <? 1 then None else Some (ob_reopen_nfds ob')).
Proof.
  intros Hrun Hr Hs Hp Hex.
  set (s1 := scan_fds (take (Z.to_nat (nfds st)) (ob_revents ob)) st).
  set (s2 := if als_enabled && als_check_due long_bits (ob_now ob) (tv_als s1)
             then ambient_check (ob_now ob) s1 else s1).
  assert (Hb : loop_body long_bits als_enabled ob st = Continue (stop_if false s2)).
  { unfold loop_body, loop_reopen, loop_poll. rewrite Hr, Hs.
    destruct (Z.ltb_spec (ob_poll_ret ob) 0); [lia |].
    destruct (Z.eqb_spec (ob_poll_ret ob) 0); [lia |]. reflexivity. }
  assert (He : reopen s2 = true /\ running s2 = true).
  { pose proof (scan_fds_error _ st Hex) as He.
    destruct (scan_fds_keeps (take (Z.to_nat (nfds st)) (ob_revents ob)) st) as (Hr1 & _).
    unfold s2. fold s1 in He, Hr1. case_match; simpl; rewrite He, Hr1; auto. }
  exists (stop_if false s2). simpl. rewrite andb_true_r. destruct He as [He Hr2].
  split_and!; auto.
  - econstructor; eauto.
  - rewrite Hrun, Hb. reflexivity.
  - intros ob'. unfold poll_nfds, loop_reopen. simpl. rewrite He. destruct (ob_reopen_nfds ob' <? 1); reflexivity.
Qed.

End ReachTheorems.


(** ** Witnesses *)

(** After the hangup, a reopen that finds two devices polls two. *)
Lemma poll_never_empty_witness :
  rtc (loop_step 64 true) (sample_st false) after_hup /\
  poll_nfds (sample_ob 2 1 [] false) after_hup = Some 2 /\ 1 <= 2.
Proof.
  assert (Hr : rtc (loop_step 64 true) (sample_st false) after_hup).
  { apply rtc_once. apply (loop_step_continue 64 true (sample_ob 1 1 [hup_rev] false));
      vm_compute; reflexivity. }
  assert (Hp : poll_nfds (sample_ob 2 1 [] false) after_hup = Some 2)
    by (vm_compute; reflexivity).
  split_and!; [exact Hr | exact Hp |].
  apply (poll_never_empty 64 true (sample_st false) after_hup (sample_ob 2 1 [] false) 2);
    [unfold devices_open; simpl; lia | exact Hr | exact Hp].
Defined.

Lemma device_error_leads_to_reopen_witness :
  exists st', loop_step 64 true (sample_st false) st' /\ reopen st' = true /\
    running st' = true /\
    main_loop 64 true [sample_ob 1 1 [hup_rev] false; sample_ob 0 1 [] false] (sample_st false) =
    main_loop 64 true [sample_ob 0 1 [] false] st' /\
    forall ob', poll_nfds ob' st' =
                (if ob_reopen_nfds ob' <? 1 then None else Some (ob_reopen_nfds ob')).
Proof.
  apply device_error_leads_to_reopen;
    [reflexivity | reflexivity | reflexivity | simpl; lia | simpl; constructor; reflexivity].
Defined.

End LoopReach.
