(* ===== verification/Daemon.v ===== *)
(** * [main]: start-up, the loop and the exit status (src/src/mbpeventd.c)

    [Module Daemon] composes the components the way [main] (lines
    214-461) does.  It parses the options with [getopt] ("fv"), loads the
    configuration, identifies the machine ([Machine.check_machine_smbios])
    and selects its bundle ([Machine.select_machine_ops]).  It then
    probes the LCD backlight through the [LcdBacklight] interface, opens
    the event devices, detaches with [daemon()] unless [-f] was given,
    writes the pidfile, and runs [EventLoop.main_loop].  Each [exit()] of
    the start-up is a [MainExit] with its status and the events so far.
    A run that reaches the loop is a [MainLoop] with the loop's outcome
    and its final state.  The events ([daemon_event]) are the log lines
    and the calls whose effect outlives the statement: openlog,
    evdev_open and evdev_close, kbd_backlight_status_init, audio_init,
    daemon(), the pidfile's write and unlink, config_cleanup and
    closelog.  [logmsg_out] is where [logmsg] sends a line: stderr in the
    foreground, syslog otherwise.

    What the environment answers (the option characters that [getopt]
    returns, [config_load]'s result, the SMBIOS strings, [evdev_open]'s
    count, [daemon()] and [fopen] of the pidfile, the first
    [gettimeofday], and the observations of every iteration) is the
    record [main_env].  The LCD backlight drivers are the [Section]
    variable [lcd_driver]: for each probe and step function a bundle can
    name ([x1600_backlight_probe], [gma950_backlight_step], ...), the
    driver they make up, on the process state [St].  [main] probes, and
    the loop steps, through the driver of the functions the selected
    bundle names ([bundle_driver]), as [mops->lcd_backlight_probe] and
    [mops->lcd_backlight_step] do.  Those functions live in
    x1600_backlight.c and gma950_backlight.c, which are not in the
    sources, so the theorems hold whatever [lcd_driver] is.  The
    witnesses run the sysfs driver in their place. *)

From S2P Require Import Prelude.
From S2P Require Import SysfsBacklight.
From S2P Require Import Machine.
From S2P Require Import Driver.
From S2P Require Import EventLoop.
From S2P Require Import LoopReach.
From stdpp Require Import relations.

Open Scope Z_scope.

Module Daemon.

Import Machine EventLoop LoopReach.

Local Open Scope list_scope.

(** ** Data *)

Record main_env := mk_main_env {
  opts : list ascii;          (** the successive results of [getopt] *)
  config_ret : Z;             (** [config_load()] *)
  smbios : smbios_env;
  evdev_nfds : Z;             (** [evdev_open(&fds)] *)
  has_kbd : bool;             (** [has_kbd_backlight()] *)
  kbd_auto_on : bool;         (** [kbd_cfg.auto_on] *)
  audio_ret : Z;              (** [audio_init()] *)
  daemon_ret : Z;             (** [daemon(0, 0)] *)
  pidfile_ok : bool;          (** [fopen(PIDFILE, "w") != NULL] *)
  tv_start : timeval;         (** the first [gettimeofday(&tv_als)] *)
  observations : list observation
}.

(** What [main] does to the process and the system, in order: its log
    lines, and the calls whose effect outlives a line of code (the syslog
    connection, the open event devices, the detach from the terminal, the
    pidfile and the configuration). *)
Inductive daemon_event :=
  | DLog (e : log_entry)
  | DOpenLog | DCloseLog
  | DEvdevOpen (n : Z) | DEvdevClose
  | DKbdStatusInit | DAudioInit
  | DDetach
  | DPidfileWrite | DPidfileUnlink
  | DConfigCleanup
  | DStdout (line : string).

Inductive main_result (St : Type) :=
  | MainExit (status : Z) (events : list daemon_event)
  | MainLoop (outcome : loop_outcome) (st : loop_state St) (events : list daemon_event).
Arguments MainExit {St}. Arguments MainLoop {St}.

(** The exit status of the process; [None] while the loop still runs.
    After the loop, [main] returns 0 (line 460). *)
Definition main_status {St} (r : main_result St) : option Z :=
  match r with
  | MainExit s _ => Some s
  | MainLoop LoopPending _ _ => None
  | MainLoop _ _ _ => Some 0
  end.

Definition main_events {St} (r : main_result St) : list daemon_event :=
  match r with MainExit _ ev | MainLoop _ _ ev => ev end.

(** ** Operations *)

(** [M_VERSION] (mbpeventd.h, not in the sources): the macro's value is
    not known, so the text keeps its name.  No theorem depends on it. *)
Definition M_VERSION : string := "M_VERSION".

Definition version_line : string :=
  "mbpeventd v" +:+ M_VERSION +:+ " ($Rev$) MacBook Pro & MacBook hotkeys handler".
Definition copyright_line : string := "Copyright (C) 2006 Julien BLACHE <jb@jblache.org>".

Definition tab : string := String "009"%char EmptyString.

(** [usage] (lines 195-206): six lines on stdout, each [printf] one
    line (its final newline left out). *)
Definition usage : list daemon_event :=
  DStdout <$> [version_line; copyright_line; "Usage:";
               tab +:+ "mpbeventd" +:+ tab +:+ "-- start mbpeventd as a daemon";
               tab +:+ "mbpeventd -v" +:+ tab +:+ "-- print version and exit";
               tab +:+ "mbpeventd -f" +:+ tab +:+ "-- run in the foreground with debug messages"].

(** Lines 245-246: what [-v] prints. *)
Definition version_text : list daemon_event := DStdout <$> [version_line; copyright_line].

(** Lines 233-256, with [DEBUG] undefined: [-f] sets [debug], [-v]
    prints the version and exits with 0, anything else prints the usage
    and exits with -1.  [inl debug] is the end of the options, [inr] an
    exit with its status and what was printed. *)
Fixpoint getopt_loop (os : list ascii) (debug : bool) : bool + (Z * list daemon_event) :=
  match os with
  | [] => inl debug
  | c :: os' =>
      if ascii_dec c "f"%char then getopt_loop os' true
      else if ascii_dec c "v"%char then inr (0, version_text)
      else inr (-1, usage)
  end.

(** The log lines of [check_machine_smbios]. *)
Definition smbios_logs (ev : list smbios_event) : list log_entry :=
  omap (fun e => match e with Log l => Some l | _ => None end) ev.

Definition banner : list log_entry :=
  [mk_log LOG_INFO version_line; mk_log LOG_INFO copyright_line].

Definition logs (l : list log_entry) : list daemon_event := DLog <$> l.
Definition log1 (lvl : log_level) (msg : string) : list daemon_event := [DLog (mk_log lvl msg)].

(** [logmsg] (lines 103-138): in the foreground ([debug]) a line goes to
    stderr with a prefix for its level and a newline, otherwise to
    [vsyslog] with the priority [level | LOG_DAEMON].  The priorities are
    those of syslog.h. *)
Inductive log_output := Stderr (text : string) | Syslog (priority : Z) (text : string).

Definition syslog_level (lvl : log_level) : Z :=
  match lvl with LOG_ERR => 3 | LOG_WARNING => 4 | LOG_INFO => 6 | LOG_DEBUG => 7 end.

Definition LOG_DAEMON : Z := 3 * 8.

Definition logmsg_prefix (lvl : log_level) : string :=
  match lvl with
  | LOG_INFO => "I: " | LOG_WARNING => "W: " | LOG_ERR => "E: " | LOG_DEBUG => ""
  end.

Definition logmsg_out (debug : bool) (e : log_entry) : log_output :=
  if debug then Stderr (logmsg_prefix (log_lvl e) +:+ log_msg e +:+ String "010"%char EmptyString)
  else Syslog (Z.lor (syslog_level (log_lvl e)) LOG_DAEMON) (log_msg e).

(** What the log lines of a run print, in order. *)
Definition log_outputs (debug : bool) (ev : list daemon_event) : list log_output :=
  omap (fun d => match d with DLog l => Some (logmsg_out debug l) | _ => None end) ev.

(** How many events of a kind a trace holds. *)
Definition count_ev (p : daemon_event -> bool) (ev : list daemon_event) : nat :=
  length (filter p ev).

Definition is_evdev_open (d : daemon_event) : bool :=
  match d with DEvdevOpen _ => true | _ => false end.
Definition is_evdev_close (d : daemon_event) : bool :=
  match d with DEvdevClose => true | _ => false end.
Definition is_pidfile_write (d : daemon_event) : bool :=
  match d with DPidfileWrite => true | _ => false end.
Definition is_pidfile_unlink (d : daemon_event) : bool :=
  match d with DPidfileUnlink => true | _ => false end.

(** ** Sample runs on the sysfs driver *)

Import SysfsDriver.

(** A MacBookPro2,2 with [nfds] event devices, where the start-up succeeds
    and the loop sees [obs]. *)
Definition sample_env (os : list ascii) (nfds : Z) (obs : list observation) : main_env :=
  mk_main_env os 0 (mk_smbios_env 0 "Apple Computer, Inc." "MacBookPro2,2") nfds true true 0 0 true
    (mk_timeval 998 900000) obs.

(** The sysfs driver before its probe: the globals zeroed, the hardware
    at level 100 of 255. *)
Definition sample_driver : sysfs_state :=
  (SysfsBacklight.sample_globals 0 0 0 0 0,
   SysfsBacklight.sample_world SysfsBacklight.radeon_fs 100 255 SysfsBacklight.zero_stack).

(** A failed [poll], and an iteration with two brightness-up keys. *)
Definition poll_error_ob : observation :=
  mk_observation 2 (-1) false [] (mk_timeval 1000 100) false.
Definition keys_ob : observation :=
  mk_observation 2 1 false [keys_rev [KEY_BRIGHTNESSUP; KEY_BRIGHTNESSUP]; quiet_rev]
    (mk_timeval 1000 100) false.

(** The sysfs driver in place of the bundles' drivers. *)
Definition sample_lcd_driver : lcd_probe_fn -> lcd_step_fn -> LcdBacklight sysfs_state :=
  fun _ _ => sysfs_lcd.

Section Main.
Context {St : Type}.
Variable lcd_driver : lcd_probe_fn -> lcd_step_fn -> LcdBacklight St.
Variable long_bits : Z.

(** [mops->lcd_backlight_probe] and [mops->lcd_backlight_step]: the
    driver of the functions a bundle names. *)
Definition bundle_driver (ops : machine_ops) : LcdBacklight St :=
  lcd_driver (lcd_backlight_probe ops) (lcd_backlight_step ops).

(** Lines 335-368 and 370-460: detach, write the pidfile, run the loop
    on the driver [drv] and clean up. *)
Definition main_run (drv : LcdBacklight St) (e : main_env) (debug : bool) (nfds : Z) (s : St)
    (ev : list daemon_event) : main_result St :=
  if negb debug && negb (daemon_ret e =? 0) then
    MainExit (-1) (ev ++ log1 LOG_ERR "daemon() failed" ++ [DEvdevClose])
  else
    let ev := if debug then ev else ev ++ [DDetach] in
    if negb (pidfile_ok e) then
      MainExit (-1) (ev ++ log1 LOG_WARNING "Could not open pidfile" ++ [DEvdevClose])
    else
      let ev := ev ++ [DPidfileWrite] in
      let st0 := mk_loop_state true false nfds (tv_start e) s [] in
      let '(out, st) :=
        @main_loop St drv long_bits (kbd_auto_on e && has_kbd e) (observations e) st0 in
      match out with
      | LoopPending => MainLoop out st ev
      | _ => MainLoop out st (ev ++ [DEvdevClose; DPidfileUnlink; DConfigCleanup] ++
                               log1 LOG_INFO "Exiting" ++ (if debug then [] else [DCloseLog]))
      end.

(** Lines 233-333: the options and the start-up sequence. *)
Definition main (e : main_env) (s : St) : main_result St :=
  match getopt_loop (opts e) false with
  | inr (status, out) => MainExit status out
  | inl debug =>
      let ev := (if debug then [] else [DOpenLog]) ++ logs banner in
      if config_ret e <? 0 then MainExit (-1) ev else
      let '(machine, sev) := check_machine_smbios (smbios e) in
      let ev := ev ++ logs (smbios_logs sev) in
      match select_machine_ops machine with
      | ExitWith status l => MainExit status (ev ++ logs l)
      | Selected ops =>
          let drv := bundle_driver ops in
          let '(ret, s) := @lcd_probe St drv s in
          if ret <? 0 then MainExit 1 (ev ++ log1 LOG_ERR "No LCD backlight found") else
          let nfds := evdev_nfds e in
          if nfds <? 1 then MainExit 1 (ev ++ log1 LOG_ERR "No suitable event devices found")
          else
            let ev := ev ++ [DEvdevOpen nfds] ++ (if has_kbd e then [DKbdStatusInit] else []) ++
                      [DAudioInit] ++
                      (if audio_ret e <? 0
                       then log1 LOG_WARNING "Audio initialization failed, audio support disabled"
                       else []) in
            main_run drv e debug nfds s ev
      end
  end.

(** The initial state of the loop (lines 362-368), on the driver [drv]. *)
Definition loop_start (drv : LcdBacklight St) (e : main_env) (s : St) : loop_state St :=
  mk_loop_state true false (evdev_nfds e) (tv_start e) (@lcd_probe St drv s).2 [].

(** The start-up of [main] succeeds: every check from line 258 to line
    360 passes. *)
Definition startup_ok (e : main_env) (s : St) (debug : bool) : Prop :=
  getopt_loop (opts e) false = inl debug /\ 0 <= config_ret e /\
  (exists ops, select_machine_ops (check_machine_smbios (smbios e)).1 = Selected ops /\
     0 <= (@lcd_probe St (bundle_driver ops) s).1) /\ 1 <= evdev_nfds e /\
  (debug = true \/ daemon_ret e = 0) /\ pidfile_ok e = true.

(** ** Lemmas *)

Lemma getopt_loop_status os d status out :
  getopt_loop os d = inr (status, out) ->
  (status = 0 /\ out = version_text) \/ (status = -1 /\ out = usage).
Proof.
  revert d. induction os as [|c os IH]; intros d; simpl; [done |].
  repeat case_match; intros; simplify_eq; eauto.
Qed.

Lemma getopt_loop_stop pre c rest d :
  Forall (fun c => c = "f"%char) pre -> c <> "f"%char ->
  getopt_loop (pre ++ c :: rest) d =
  inr (if ascii_dec c "v"%char then (0, version_text) else (-1, usage)).
Proof.
  intros Hf Hc. revert d. induction Hf as [|c' pre -> Hf IH]; intros d; simpl; [| by apply IH].
  destruct (ascii_dec c "f"); [contradiction |]. by case_match.
Qed.

Lemma count_ev_app p a b : count_ev p (a ++ b) = (count_ev p a + count_ev p b)%nat.
Proof. unfold count_ev. by rewrite filter_app, length_app. Qed.

Lemma count_ev_cons p x l :
  count_ev p (x :: l) = ((if p x then 1 else 0) + count_ev p l)%nat.
Proof. unfold count_ev. rewrite filter_cons. by destruct (p x). Qed.

(** Log lines open and close nothing. *)
Lemma count_logs p l : (forall e, p (DLog e) = false) -> count_ev p (logs l) = 0%nat.
Proof.
  intros Hp. unfold count_ev, logs. induction l as [|e l IH]; [done |].
  rewrite fmap_cons, filter_cons, Hp. exact IH.
Qed.

(** A syslog priority keeps the level in its low three bits and the
    facility [LOG_DAEMON] above them. *)
Lemma logmsg_out_syslog e :
  exists p, logmsg_out false e = Syslog p (log_msg e) /\
    Z.land p 7 = syslog_level (log_lvl e) /\ Z.shiftr p 3 = 3.
Proof. eexists. split; [reflexivity |]. by destruct e as [[] ?]. Qed.

Lemma select_exit_status m status l :
  select_machine_ops m = ExitWith status l -> status = 1.
Proof. destruct m; simpl; congruence. Qed.

(** Whenever [main] reaches the loop, the loop started from
    [loop_start]. *)
Lemma main_loop_shape e s out st logs :
  main e s = MainLoop out st logs ->
  exists ops, select_machine_ops (check_machine_smbios (smbios e)).1 = Selected ops /\
  (out, st) = @main_loop St (bundle_driver ops) long_bits (kbd_auto_on e && has_kbd e)
                (observations e) (loop_start (bundle_driver ops) e s).
Proof.
  unfold main, main_run, loop_start.
  destruct (getopt_loop (opts e) false) as [? | [? ?]]; [| discriminate].
  destruct (config_ret e <? 0); [discriminate |].
  destruct (check_machine_smbios (smbios e)) as [m ev]. simpl.
  destruct (select_machine_ops m) as [ops |]; [| discriminate].
  intros Hm. exists ops. split; [done |]. revert Hm.
  destruct (@lcd_probe St (bundle_driver ops) s) as [r s']. simpl.
  destruct (r <? 0), (evdev_nfds e <? 1); try discriminate.
  repeat case_match; try discriminate; intros [= <- <- _]; congruence.
Qed.

(** [main] enters the loop only with at least one event device. *)
Lemma main_loop_nfds e s out st ev :
  main e s = MainLoop out st ev -> 1 <= evdev_nfds e.
Proof.
  unfold main, main_run.
  destruct (getopt_loop (opts e) false) as [? | [? ?]]; [| discriminate].
  destruct (config_ret e <? 0); [discriminate |].
  destruct (check_machine_smbios (smbios e)) as [m sev].
  destruct (select_machine_ops m) as [ops |]; [| discriminate].
  destruct (@lcd_probe St (bundle_driver ops) s) as [r s']. simpl.
  destruct (r <? 0); [discriminate |].
  destruct (Z.ltb_spec (evdev_nfds e) 1); [discriminate | done].
Qed.

Lemma main_enters_loop e s debug :
  startup_ok e s debug ->
  exists ops logs, select_machine_ops (check_machine_smbios (smbios e)).1 = Selected ops /\
    let drv := bundle_driver ops in
    main e s =
    MainLoop (@main_loop St drv long_bits (kbd_auto_on e && has_kbd e) (observations e)
                (loop_start drv e s)).1
             (@main_loop St drv long_bits (kbd_auto_on e && has_kbd e) (observations e)
                (loop_start drv e s)).2
             logs.
Proof.
  intros (Hopt & Hcfg & (ops & Hsel & Hprobe) & Hn & Hd & Hp). exists ops.
  unfold main, main_run, loop_start. rewrite Hopt.
  destruct (Z.ltb_spec (config_ret e) 0); [lia |].
  destruct (check_machine_smbios (smbios e)) as [m ev]. simpl in Hsel. rewrite Hsel.
  destruct (@lcd_probe St (bundle_driver ops) s) as [r s']. simpl in *.
  destruct (Z.ltb_spec r 0), (Z.ltb_spec (evdev_nfds e) 1); try lia.
  replace (negb debug && negb (daemon_ret e =? 0)) with false
    by (destruct Hd as [-> | ->]; [| simpl; rewrite andb_false_r]; reflexivity).
  rewrite Hp. simpl.
  destruct (main_loop _ _ _ _) as [[| |] st]; eexists; (split; [exact Hsel | reflexivity]).
Qed.

End Main.

Ltac count_simpl :=
  repeat rewrite ?count_ev_app, ?count_ev_cons, ?count_logs by (intros; reflexivity);
  unfold count_ev; simpl.

(** ** Theorems *)

Section MainTheorems.
Context {St : Type}.
Variable lcd_driver : lcd_probe_fn -> lcd_step_fn -> LcdBacklight St.
Variable long_bits : Z.

(** The process ends with one of three statuses, or runs on:
    0 ([-v], or the end of the loop), 1 (no recognised machine, no
    backlight, no event device) or -1 (a bad option, the configuration,
    [daemon()] or the pidfile). *)
Theorem main_exit_status_values e s :
  main_status (main lcd_driver long_bits e s) = None \/ main_status (main lcd_driver long_bits e s) = Some 0 \/
  main_status (main lcd_driver long_bits e s) = Some 1 \/ main_status (main lcd_driver long_bits e s) = Some (-1).
Proof.
  unfold main, main_run. destruct (getopt_loop (opts e) false) as [debug | [status out]] eqn:Ho.
  - destruct (config_ret e <? 0); [by simpl; auto |].
    destruct (check_machine_smbios (smbios e)) as [m ev].
    destruct (select_machine_ops m) as [ops | status l] eqn:Hs.
    + destruct (@lcd_probe St (bundle_driver lcd_driver ops) s) as [r s'].
      repeat case_match; simpl; auto.
    + apply select_exit_status in Hs. subst. simpl. auto.
  - apply getopt_loop_status in Ho as [[-> _] | [-> _]]; simpl; auto.
Qed.

(** C13: a structural failure of the start-up (the configuration, an
    unrecognised machine, no backlight, no event device) makes [main]
    exit before the loop with a non-zero status, whichever of them
    fails first. *)
Theorem main_startup_failure_nonzero e s debug :
  getopt_loop (opts e) false = inl debug ->
  config_ret e < 0 \/
  (exists status l, select_machine_ops (check_machine_smbios (smbios e)).1 = ExitWith status l) \/
  (exists ops, select_machine_ops (check_machine_smbios (smbios e)).1 = Selected ops /\
     (@lcd_probe St (bundle_driver lcd_driver ops) s).1 < 0) \/
  evdev_nfds e < 1 ->
  exists status logs, main lcd_driver long_bits e s = MainExit status logs /\ status <> 0.
Proof.
  intros Ho Hf. unfold main. rewrite Ho.
  destruct (Z.ltb_spec (config_ret e) 0); [by eauto with lia |].
  destruct (check_machine_smbios (smbios e)) as [m ev]. simpl in Hf.
  destruct (select_machine_ops m) as [ops | status l] eqn:Hs.
  - destruct (@lcd_probe St (bundle_driver lcd_driver ops) s) as [r s'] eqn:Ep. simpl in Hf.
    destruct (Z.ltb_spec r 0); [by eauto with lia |].
    destruct (Z.ltb_spec (evdev_nfds e) 1); [by eauto with lia |].
    destruct Hf as [? | [(? & ? & ?) | [(ops' & Hs' & Hp') | ?]]]; try congruence; try lia.
    injection Hs' as <-. rewrite Ep in Hp'. simpl in Hp'. lia.
  - apply select_exit_status in Hs. subst. eauto with lia.
Qed.

(** C30: a fatal error of the loop ends the process with status 0,
    the status of a clean shutdown by signal.  After a successful
    start-up, a [poll] that fails with an error other than [EINTR]
    breaks the loop, and [main] then returns 0. *)
Theorem main_poll_error_exits_zero e s debug ob obs :
  startup_ok lcd_driver e s debug -> observations e = ob :: obs ->
  ob_poll_ret ob < 0 -> ob_poll_eintr ob = false ->
  (exists st logs, main lcd_driver long_bits e s = MainLoop (LoopBroke ExitPollError) st logs) /\
  main_status (main lcd_driver long_bits e s) = Some 0.
Proof.
  intros Hok Ho Hr He.
  destruct (main_enters_loop lcd_driver long_bits e s debug Hok) as (ops & logs & _ & ->).
  rewrite Ho. unfold loop_start. simpl.
  unfold loop_body, loop_reopen, loop_poll. simpl.
  apply Z.ltb_lt in Hr. rewrite Hr, He. simpl. eauto.
Qed.

(** C22: composition of the start-up with the loop.  Whenever [main]
    reaches the loop, every state the loop can reach from where [main]
    starts it passes at least one descriptor to [poll] (or breaks in the
    reopen), and the state [main] ends with is such a reachable state or
    the [break] out of one. *)
Theorem main_loop_runs_on_open_devices e s out st ev :
  main lcd_driver long_bits e s = MainLoop out st ev ->
  exists ops, select_machine_ops (check_machine_smbios (smbios e)).1 = Selected ops /\
  let drv := bundle_driver lcd_driver ops in
  let als := kbd_auto_on e && has_kbd e in
  (forall st1 ob n,
     rtc (@loop_step St drv long_bits als) (loop_start drv e s) st1 ->
     poll_nfds ob st1 = Some n -> 1 <= n) /\
  (rtc (@loop_step St drv long_bits als) (loop_start drv e s) st \/
   exists st1 ob why,
     rtc (@loop_step St drv long_bits als) (loop_start drv e s) st1 /\
     running st1 = true /\
     @loop_body St drv long_bits als ob st1 = Break why st).
Proof.
  intros Hm. pose proof (main_loop_nfds lcd_driver long_bits e s out st ev Hm) as Hn.
  destruct (main_loop_shape lcd_driver long_bits e s out st ev Hm) as (ops & Hsel & Hsh).
  exists ops. split; [exact Hsel |]. cbv zeta. split.
  - intros st1 ob n Hr. apply devices_open_poll.
    apply (@reachable_devices St (bundle_driver lcd_driver ops) long_bits
             (kbd_auto_on e && has_kbd e) (loop_start (bundle_driver lcd_driver ops) e s));
      [intros _; exact Hn | exact Hr].
  - symmetry in Hsh. exact (main_loop_reachable _ _ _ _ _ _ Hsh).
Qed.

(** C23: the options.  After any number of [-f], a [-v] makes [main]
    print the version and copyright lines and exit with 0, and any other
    option print the usage and exit with -1, before anything is logged,
    loaded or opened. *)
Theorem main_options_exit e s pre c rest :
  opts e = pre ++ c :: rest -> Forall (fun c => c = "f"%char) pre -> c <> "f"%char ->
  main lcd_driver long_bits e s =
  if ascii_dec c "v"%char then MainExit 0 version_text else MainExit (-1) usage.
Proof.
  intros Ho Hf Hc. unfold main. rewrite Ho, getopt_loop_stop by done.
  destruct (ascii_dec c "v"%char); reflexivity.
Qed.

(** C35: resource safety of [main].  When the process ends (by an
    [exit] of the start-up or by the return after the loop), the event
    devices were closed as many times as they were opened (at most once),
    and the pidfile was removed if it was written.  While the loop still
    runs, the devices are open and the pidfile exists. *)
Theorem main_releases_resources e s :
  let ev := main_events (main lcd_driver long_bits e s) in
  match main_status (main lcd_driver long_bits e s) with
  | Some _ =>
      count_ev is_evdev_open ev = count_ev is_evdev_close ev /\
      (count_ev is_evdev_open ev <= 1)%nat /\
      count_ev is_pidfile_write ev = count_ev is_pidfile_unlink ev
  | None =>
      count_ev is_evdev_open ev = 1%nat /\ count_ev is_evdev_close ev = 0%nat /\
      count_ev is_pidfile_write ev = 1%nat /\ count_ev is_pidfile_unlink ev = 0%nat
  end.
Proof.
  cbv zeta. destruct (main lcd_driver long_bits e s) as [status ev | out st ev] eqn:Hm; simpl;
    unfold main, main_run in Hm; repeat case_match; simplify_eq;
    try match goal with H : getopt_loop _ _ = inr _ |- _ =>
      apply getopt_loop_status in H as [[-> ->] | [-> ->]] end;
    count_simpl; lia.
Qed.

End MainTheorems.

(** ** Witnesses *)

(** No event device: exit status 1. *)
Lemma main_startup_failure_nonzero_witness :
  exists status logs, main sample_lcd_driver 64 (sample_env [] 0 []) sample_driver = MainExit status logs /\ status <> 0.
Proof.
  apply (main_startup_failure_nonzero sample_lcd_driver 64 (sample_env [] 0 []) sample_driver false);
    [reflexivity | right; right; right; simpl; lia].
Defined.

Lemma main_poll_error_exits_zero_witness :
  startup_ok sample_lcd_driver (sample_env [] 2 [poll_error_ob; keys_ob]) sample_driver false /\
  main_status (main sample_lcd_driver 64 (sample_env [] 2 [poll_error_ob; keys_ob]) sample_driver) = Some 0.
Proof.
  assert (Hs : startup_ok sample_lcd_driver (sample_env [] 2 [poll_error_ob; keys_ob])
                 sample_driver false).
  { unfold startup_ok. split_and!; try reflexivity; try (simpl; lia); try (right; reflexivity).
    eexists. split; [reflexivity | apply Z.leb_le; vm_compute; reflexivity]. }
  split; [exact Hs |].
  apply (main_poll_error_exits_zero sample_lcd_driver 64 _ _ false poll_error_ob [keys_ob] Hs); simpl;
    [reflexivity | lia | reflexivity].
Defined.

(** Two key presses, then a [poll] error. *)
Lemma main_loop_runs_on_open_devices_witness :
  exists out st ev,
    main sample_lcd_driver 64 (sample_env [] 2 [keys_ob; poll_error_ob]) sample_driver = MainLoop out st ev /\
    (rtc (@loop_step _ sysfs_lcd 64 true)
       (loop_start sysfs_lcd (sample_env [] 2 [keys_ob; poll_error_ob]) sample_driver) st
     \/ exists st1 ob why,
       rtc (@loop_step _ sysfs_lcd 64 true)
         (loop_start sysfs_lcd (sample_env [] 2 [keys_ob; poll_error_ob]) sample_driver) st1 /\
       running st1 = true /\ @loop_body _ sysfs_lcd 64 true ob st1 = Break why st).
Proof.
  destruct (main sample_lcd_driver 64 (sample_env [] 2 [keys_ob; poll_error_ob]) sample_driver)
    as [status ev | out st ev] eqn:E; [vm_compute in E; discriminate |].
  exists out, st, ev. split; [reflexivity |].
  destruct (main_loop_runs_on_open_devices sample_lcd_driver 64 _ _ out st ev E)
    as (ops & _ & _ & Hr).
  exact Hr.
Defined.

(** [mbpeventd -f -f -v x] prints the version and exits with 0. *)
Lemma main_options_exit_witness :
  main sample_lcd_driver 64 (sample_env ["f"; "f"; "v"; "x"]%char 2 []) sample_driver = MainExit 0 version_text.
Proof.
  rewrite (main_options_exit sample_lcd_driver 64 _ _ ["f"; "f"]%char "v"%char ["x"]%char);
    [reflexivity | reflexivity | repeat constructor | discriminate].
Defined.

End Daemon.
